(** * Aptix API: the agent-interaction request pipeline

    A shallow embedding of the two agent routes of the Aptix API server
    ([GET /api/agent/:name] and [POST /api/agent/:name/interact]) and of the
    request validation schema they use, followed by the properties of the
    pipeline: validation, agent lookup, prompt construction, the call to the
    generation provider, the usage record and the response envelopes.

    JavaScript strings are modelled by [string]; one character stands for one
    UTF-16 code unit, so that [String.length] is the [.length] of the source.
    The collaborators of a handler (Firestore, the OpenAI client, the clock and
    [process.env]) are the fields of a [World]; a handler is a computation that
    reads the world, appends to a trace of the calls it makes and either
    returns a value or throws. *)

From Stdlib Require Import String Ascii List Bool Arith ZArith QArith Lia.
From Stdlib Require Import DecimalString.
Import ListNotations.

Local Close Scope Q_scope.
Local Open Scope list_scope.
Local Open Scope string_scope.

Set Warnings "-register-all".

(** ** JSON values *)

(** The value [express.json()] leaves in [req.body], and the values of the
    fields of a stored document.  The properties of an object are listed in
    the order in which [Object.keys] enumerates them. *)
Inductive Json : Type :=
| JNull
| JBool (b : bool)
| JNum (q : Q)
| JStr (s : string)
| JArr (items : list Json)
| JObj (props : list (string * Json)).

(** [value[key]] on the own properties of an object; [None] is [undefined]. *)
Fixpoint get (key : string) (props : list (string * Json)) : option Json :=
  match props with
  | [] => None
  | (k, v) :: rest => if String.eqb k key then Some v else get key rest
  end.

(** [Object.keys(value)]. *)
Definition keys (props : list (string * Json)) : list string :=
  map fst props.

(** ** Errors *)

(** A JavaScript [Error]: the two fields the handlers read. *)
Module Error.
Record t : Type := make { message : string; stack : string }.
End Error.

(** ** The validation schema (Joi) *)

Module Joi.

(** The double quote that Joi puts around a label. *)
Definition dquote : string := String (ascii_of_nat 34) EmptyString.

(** The label of the value at [key] in an error message: the key in quotes.
    Joi takes the label from the path of the value and falls back to [value]
    when the path renders as the empty string, which is the case of the
    root and of the key [""]. *)
Definition label (key : string) : string :=
  dquote ++ (if String.eqb key "" then "value" else key) ++ dquote.

(** Decimal rendering of a rule's limit in an error message. *)
Definition limit (n : nat) : string := NilEmpty.string_of_uint (Nat.to_uint n).

(** A [ValidationError] carries its message; no stack is read from it. *)
Definition fail (msg : string) : Error.t := Error.make msg "".

(** The rules that can follow [Joi.string()]. *)
Inductive rule : Type :=
| min (n : nat)
| max (n : nat).

(** One rule applied to a string that passed the base check. *)
Definition check (key : string) (r : rule) (s : string) : option Error.t :=
  match r with
  | min n =>
      if Nat.ltb (String.length s) n
      then Some (fail (label key ++ " length must be at least " ++ limit n
                         ++ " characters long"))
      else None
  | max n =>
      if Nat.ltb n (String.length s)
      then Some (fail (label key ++ " length must be less than or equal to "
                         ++ limit n ++ " characters long"))
      else None
  end.

(** The rules run in the order they were chained; the first failure is
    reported ([abortEarly] is the default). *)
Fixpoint check_all (key : string) (rs : list rule) (s : string) : option Error.t :=
  match rs with
  | [] => None
  | r :: rest =>
      match check key r s with
      | Some e => Some e
      | None => check_all key rest s
      end
  end.

(** [Joi.string().required()] followed by [rs], applied to [value[key]]:
    [undefined] is rejected by [required()], a value that is not a string by
    the base type, the empty string because [Joi.string()] does not allow it,
    and then the rules are run.  No conversion is applied to a string, so
    the validated value is the input. *)
Definition string_required (rs : list rule) (key : string) (item : option Json)
  : Error.t + string :=
  match item with
  | None => inl (fail (label key ++ " is required"))
  | Some (JStr s) =>
      if String.eqb s ""
      then inl (fail (label key ++ " is not allowed to be empty"))
      else match check_all key rs s with
           | Some e => inl e
           | None => inr s
           end
  | Some _ => inl (fail (label key ++ " must be a string"))
  end.

(** The keys of the value that the schema does not declare. *)
Definition unprocessed (declared : string) (props : list (string * Json)) : list string :=
  filter (fun k => negb (String.eqb k declared)) (keys props).

(** [Joi.object({ key: child }).validate(body)]: the body must be an object
    (not [null], not an array); the declared key is validated first, then
    every other key of the body is refused, since unknown keys are not
    allowed by default. *)
Definition object (key : string) (child : string -> option Json -> Error.t + string)
           (body : Json) : Error.t + string :=
  match body with
  | JObj props =>
      match child key (get key props) with
      | inl e => inl e
      | inr s =>
          match unprocessed key props with
          | k :: _ => inl (fail (label k ++ " is not allowed"))
          | [] => inr s
          end
      end
  | _ => inl (fail (label "value" ++ " must be of type object"))
  end.

End Joi.

(** [interactSchema]: an object whose only key is a required [message]
    string of 1 to 1000 characters.  [interactSchema body] is
    [interactSchema.validate(req.body)]: [inl error], or [inr] of the
    [message] of the validated [value]. *)
Definition interactSchema : Json -> Error.t + string :=
  Joi.object "message" (Joi.string_required [Joi.min 1; Joi.max 1000]).

(** ** JavaScript operators the handlers use *)

(** [v || d] where [v] is a string, [null] or [undefined]: the empty string is
    falsy like the two absent values. *)
Definition or_else (v : option string) (d : string) : string :=
  match v with
  | Some s => if String.eqb s "" then d else s
  | None => d
  end.

(** [new Date().toISOString()]: the UTC rendering of a time value given in
    milliseconds since the epoch. *)
Module Date.

Local Open Scope Z_scope.

Definition digit (n : Z) : ascii := ascii_of_nat (48 + Z.to_nat (n mod 10)).

(** The last [width] decimal digits of [n], zero padded. *)
Fixpoint pad (width : nat) (n : Z) : string :=
  match width with
  | O => EmptyString
  | S w => (pad w (n / 10) ++ String (digit n) EmptyString)%string
  end.

Definition msPerDay : Z := 86400000.

(** Year, month and day of the month of a day number counted from
    1970-01-01, in the proleptic Gregorian calendar. *)
Definition civil (day : Z) : Z * Z * Z :=
  let z := day + 719468 in
  let era := z / 146097 in
  let doe := z - era * 146097 in
  let yoe := (doe - doe / 1460 + doe / 36524 - doe / 146096) / 365 in
  let doy := doe - (365 * yoe + yoe / 4 - yoe / 100) in
  let mp := (5 * doy + 2) / 153 in
  let d := doy - (153 * mp + 2) / 5 + 1 in
  let m := if mp <? 10 then mp + 3 else mp - 9 in
  let y := yoe + era * 400 + (if m <=? 2 then 1 else 0) in
  (y, m, d).

(** Four digits for the years 0 to 9999, a sign and six digits otherwise. *)
Definition year (y : Z) : string :=
  if (0 <=? y) && (y <=? 9999) then pad 4 y
  else ((if (y <? 0)%Z then "-" else "+") ++ pad 6 (Z.abs y))%string.

Definition toISOString (t : Z) : string :=
  let '(y, m, d) := civil (t / msPerDay) in
  let ms := t mod msPerDay in
  (year y ++ "-" ++ pad 2 m ++ "-" ++ pad 2 d ++ "T"
     ++ pad 2 (ms / 3600000)%Z ++ ":" ++ pad 2 (ms / 60000 mod 60)%Z ++ ":"
     ++ pad 2 (ms / 1000 mod 60)%Z ++ "." ++ pad 3 (ms mod 1000)%Z ++ "Z")%string.

End Date.

(** ** The generation provider (OpenAI chat completions) *)

Module OpenAI.

Record ChatMessage : Type := { role : string; content : string }.

(** The argument of [openai.chat.completions.create]. *)
Record Params : Type := {
  model : string;
  messages : list ChatMessage;
  max_tokens : nat;
  temperature : Q
}.

(** The part of a completion the handler reads: [choices[i].message.content],
    where the message may be missing and the content may be [null]. *)
Module Completion.
Record Message : Type := { content : option string }.
Record Choice : Type := { message : option Message }.
Record t : Type := { choices : list Choice }.
End Completion.

End OpenAI.

(** ** The document store (Firestore) *)

(** The fields of an agent document: the two persona fields the prompt reads,
    text when present, and the remaining fields, which only the metadata
    route passes through. *)
Record AgentDetails : Type := {
  personality : option string;
  description : option string;
  others : list (string * Json)
}.

(** The snapshot [docRef.get()] resolves to: [docSnap.exists] is false, or it
    is true and [docSnap.data()] holds the fields. *)
Inductive DocumentSnapshot : Type :=
| absent
| present (data : AgentDetails).

(** [admin.firestore.FieldValue.serverTimestamp()]: a sentinel that the store
    replaces by its own clock when the record is written. *)
Inductive FieldValue : Type := serverTimestamp.

(** The record passed to [db.collection('analytics').add]. *)
Record AnalyticsRecord : Type := {
  agent : string;
  timestamp : FieldValue;
  messageLength : nat;
  responseLength : nat;
  type : string
}.

(** ** Responses *)

Inductive Body : Type :=
| ErrorBody (error message : string)
| ReplyBody (agent reply timestamp : string)
| DetailsBody (agentDetails : AgentDetails).

(** What the handler sends: [res.status(code).json(body)]. *)
Record Response : Type := { status : nat; body : Body }.

(** [res.json(body)] without [res.status]: the status stays 200. *)
Definition json (b : Body) : Response := {| status := 200; body := b |}.

(** ** The world of a request and the trace of a handler *)

(** The collaborators as one request sees them.  A call to a collaborator
    resolves ([inr]) or rejects with an error ([inl]). *)
Record World : Type := {
  env : string -> option string;
  doc_get : string -> string -> Error.t + DocumentSnapshot;
  chat_completions_create : OpenAI.Params -> Error.t + OpenAI.Completion.t;
  collection_add : string -> AnalyticsRecord -> Error.t + unit;
  now : Z
}.

(** The levels of the winston logger the handlers use. *)
Module logger.
Inductive Level : Type := info | warn | error.
End logger.

(** What a handler does to the outside, in order: a log line with its
    metadata, or a call to a collaborator. *)
Inductive Effect : Type :=
| Log (level : logger.Level) (msg : string) (meta : list (string * string))
| DocGet (collection id : string)
| ChatCreate (params : OpenAI.Params)
| CollectionAdd (collection : string) (record : AnalyticsRecord).

Definition Trace : Type := list Effect.

(** A handler computation: it reads the world, extends the trace and returns
    ([inr]) or throws ([inl]).  The trace survives a throw. *)
Definition M (A : Type) : Type := World -> Trace -> (Error.t + A) * Trace.

Definition ret {A} (a : A) : M A := fun _ t => (inr a, t).

Definition bind {A B} (m : M A) (k : A -> M B) : M B :=
  fun w t =>
    match m w t with
    | (inr a, t') => k a w t'
    | (inl e, t') => (inl e, t')
    end.

(** [try { m } catch (e) { h e }]. *)
Definition try_catch {A} (m : M A) (h : Error.t -> M A) : M A :=
  fun w t =>
    match m w t with
    | (inr a, t') => (inr a, t')
    | (inl e, t') => h e w t'
    end.

Notation "x <- m ;; k" := (bind m (fun x => k))
  (at level 61, m at next level, right associativity).
Notation "m ;; k" := (bind m (fun _ => k))
  (at level 61, right associativity).

(** Performing a call: it is recorded, then its outcome is returned or thrown. *)
Definition perform {A} (e : Effect) (outcome : World -> Error.t + A) : M A :=
  fun w t => (outcome w, (t ++ [e])%list).

Definition log (level : logger.Level) (msg : string) (meta : list (string * string)) : M unit :=
  perform (Log level msg meta) (fun _ => inr tt).

(** [await db.collection(c).doc(id).get()]. *)
Definition db_get (c id : string) : M DocumentSnapshot :=
  perform (DocGet c id) (fun w => doc_get w c id).

(** [await db.collection(c).add(r)]. *)
Definition db_add (c : string) (r : AnalyticsRecord) : M unit :=
  perform (CollectionAdd c r) (fun w => collection_add w c r).

(** [await openai.chat.completions.create(p)]. *)
Definition openai_create (p : OpenAI.Params) : M OpenAI.Completion.t :=
  perform (ChatCreate p) (fun w => chat_completions_create w p).

(** [process.env[k]]. *)
Definition process_env (k : string) : M (option string) :=
  fun w t => (inr (env w k), t).

(** [new Date().toISOString()]. *)
Definition new_Date_toISOString : M string :=
  fun w t => (inr (Date.toISOString (now w)), t).

(** ** The handlers *)

Definition nl : string := String (ascii_of_nat 10) EmptyString.

(** The template literal of the interaction handler: the agent's name and its
    two persona fields, each with its fallback, in front of the fixed
    instructions (with the line breaks and indentation of the source). *)
Definition systemPrompt (name : string) (agentDetails : AgentDetails) : string :=
  "You are " ++ name ++ ", a helpful AI agent with the following personality: "
    ++ or_else (personality agentDetails) "neutral and general."
    ++ " " ++ or_else (description agentDetails) "" ++ nl
    ++ "    " ++ nl
    ++ "    When responding, always maintain your character and consider your knowledge about the Solana blockchain environment." ++ nl
    ++ "    Your answers should be concise, helpful, and accurate. If you don't know something, admit it rather than making up information." ++ nl
    ++ "    ".

(** The object passed to [openai.chat.completions.create]: the model comes
    from [process.env.OPENAI_MODEL] when it is set and not empty; the token
    limit and the temperature are literals. *)
Definition completionParams (OPENAI_MODEL : option string) (systemPrompt message : string)
  : OpenAI.Params :=
  {| OpenAI.model := or_else OPENAI_MODEL "gpt-3.5-turbo";
     OpenAI.messages :=
       [ {| OpenAI.role := "system"; OpenAI.content := systemPrompt |};
         {| OpenAI.role := "user"; OpenAI.content := message |} ];
     OpenAI.max_tokens := 500;
     OpenAI.temperature := 0.7 |}.

(** [openAIResponse.choices[0]?.message?.content]. *)
Definition choices_0_message_content (openAIResponse : OpenAI.Completion.t) : option string :=
  match OpenAI.Completion.choices openAIResponse with
  | [] => None
  | choice :: _ =>
      match OpenAI.Completion.message choice with
      | None => None
      | Some m => OpenAI.Completion.content m
      end
  end.

(** The reply: the first choice's text, or the fixed sentence when there is
    no such text or it is empty. *)
Definition agentReply (openAIResponse : OpenAI.Completion.t) : string :=
  or_else (choices_0_message_content openAIResponse)
    "I'm sorry, I couldn't process your request at this time.".

(** The object passed to [db.collection('analytics').add]. *)
Definition usageRecord (name message agentReply : string) : AnalyticsRecord :=
  {| agent := name;
     timestamp := serverTimestamp;
     messageLength := String.length message;
     responseLength := String.length agentReply;
     type := "interaction" |}.

(** [app.get('/api/agent/:name')]. *)
Definition getAgent (name : string) : M Response :=
  try_catch
    (docSnap <- db_get "agents" name ;;
     match docSnap with
     | absent =>
         log logger.warn ("Agent not found: " ++ name) [] ;;
         ret {| status := 404;
                body := ErrorBody "Agent not found"
                          ("The agent '" ++ name ++ "' does not exist in the database") |}
     | present agentDetails =>
         log logger.info ("Successfully retrieved agent: " ++ name) [] ;;
         ret (json (DetailsBody agentDetails))
     end)
    (fun error =>
       log logger.error ("Error fetching agent details: " ++ Error.message error)
         [("agent", name); ("stack", Error.stack error)] ;;
       ret {| status := 500;
              body := ErrorBody "Internal server error"
                        "An unexpected error occurred while retrieving agent details" |}).

(** [app.post('/api/agent/:name/interact')]. *)
Definition interact (name : string) (req_body : Json) : M Response :=
  match interactSchema req_body with
  | inl error =>
      log logger.warn ("Validation error for agent interaction: " ++ Error.message error) [] ;;
      ret {| status := 400;
             body := ErrorBody "Validation error" (Error.message error) |}
  | inr message =>
      try_catch
        (docSnap <- db_get "agents" name ;;
         match docSnap with
         | absent =>
             log logger.warn ("Agent not found for interaction: " ++ name) [] ;;
             ret {| status := 404;
                    body := ErrorBody "Agent not found"
                              ("The agent '" ++ name ++ "' does not exist in the database") |}
         | present agentDetails =>
             let systemPrompt := systemPrompt name agentDetails in
             log logger.info ("Processing interaction with agent: " ++ name) [] ;;
             OPENAI_MODEL <- process_env "OPENAI_MODEL" ;;
             openAIResponse <- openai_create
               (completionParams OPENAI_MODEL systemPrompt message) ;;
             let agentReply := agentReply openAIResponse in
             log logger.info ("Agent interaction complete: " ++ name) [] ;;
             try_catch
               (db_add "analytics" (usageRecord name message agentReply))
               (fun analyticsError =>
                  log logger.error
                    ("Failed to record analytics: " ++ Error.message analyticsError) []) ;;
             now_iso <- new_Date_toISOString ;;
             ret (json (ReplyBody name agentReply now_iso))
         end)
        (fun error =>
           log logger.error ("Error in agent interaction: " ++ Error.message error)
             [("agent", name); ("stack", Error.stack error)] ;;
           ret {| status := 500;
                  body := ErrorBody "Internal server error"
                            "An unexpected error occurred during agent interaction" |})
  end.

(** Running a handler for one request: the trace starts empty. *)
Definition handle (h : M Response) (w : World) : (Error.t + Response) * Trace :=
  h w [].

(** The response the client receives, when the handler sends one. *)
Definition response (h : M Response) (w : World) : option Response :=
  match fst (handle h w) with
  | inr r => Some r
  | inl _ => None
  end.

Definition trace (h : M Response) (w : World) : Trace := snd (handle h w).

(** What a trace shows of the collaborators. *)

Definition is_call (e : Effect) : bool :=
  match e with
  | Log _ _ _ => false
  | _ => true
  end.

(** The calls to the document store and to the provider, without the log. *)
Definition calls (t : Trace) : Trace := filter is_call t.

(** The records handed to the [analytics] collection. *)
Definition analytics_records (t : Trace) : list AnalyticsRecord :=
  flat_map (fun e =>
              match e with
              | CollectionAdd c r => if String.eqb c "analytics" then [r] else []
              | _ => []
              end) t.

(** The argument of every call to the provider. *)
Definition provider_calls (t : Trace) : list OpenAI.Params :=
  flat_map (fun e =>
              match e with
              | ChatCreate p => [p]
              | _ => []
              end) t.

(** The system prompts sent to the provider. *)
Definition system_prompts (t : Trace) : list string :=
  flat_map (fun p =>
              flat_map (fun m =>
                          if String.eqb (OpenAI.role m) "system"
                          then [OpenAI.content m] else [])
                       (OpenAI.messages p))
           (provider_calls t).

(** The lines logged at a given level. *)
Definition logged (level : logger.Level) (t : Trace) : list string :=
  flat_map (fun e =>
              match e, level with
              | Log logger.info msg _, logger.info
              | Log logger.warn msg _, logger.warn
              | Log logger.error msg _, logger.error => [msg]
              | _, _ => []
              end) t.

(** The world in which only the analytics write behaves differently. *)
Definition with_collection_add (w : World)
           (add : string -> AnalyticsRecord -> Error.t + unit) : World :=
  {| env := env w;
     doc_get := doc_get w;
     chat_completions_create := chat_completions_create w;
     collection_add := add;
     now := now w |}.

(** The world in which only [process.env] is different. *)
Definition with_env (w : World) (e : string -> option string) : World :=
  {| env := e;
     doc_get := doc_get w;
     chat_completions_create := chat_completions_create w;
     collection_add := collection_add w;
     now := now w |}.

(** The [message] property of a request body, when the body has one. *)
Definition message_field (req_body : Json) : option Json :=
  match req_body with
  | JObj props => get "message" props
  | _ => None
  end.

(** The bodies whose [message] is missing, is not a string, or is a string of
    length 0 or of length greater than 1000. *)
Definition message_rejected (req_body : Json) : bool :=
  match message_field req_body with
  | None => true
  | Some (JStr s) => Nat.eqb (String.length s) 0 || Nat.ltb 1000 (String.length s)
  | Some _ => true
  end.

(** The three envelopes of the failure paths. *)
Definition validation_error (msg : string) : Response :=
  {| status := 400; body := ErrorBody "Validation error" msg |}.

Definition agent_not_found (name : string) : Response :=
  {| status := 404;
     body := ErrorBody "Agent not found"
               ("The agent '" ++ name ++ "' does not exist in the database") |}.

Definition interaction_failed : Response :=
  {| status := 500;
     body := ErrorBody "Internal server error"
               "An unexpected error occurred during agent interaction" |}.

(** The shape of [toISOString]'s result: [YYYY-MM-DDTHH:mm:ss.sssZ], the year
    being four digits or a sign and six digits. *)
Definition is_digit (c : ascii) : bool :=
  Nat.leb 48 (nat_of_ascii c) && Nat.leb (nat_of_ascii c) 57.

Fixpoint all_digits (s : string) : bool :=
  match s with
  | EmptyString => true
  | String c rest => is_digit c && all_digits rest
  end.

Definition digits (n : nat) (s : string) : Prop :=
  String.length s = n /\ all_digits s = true.

Definition ISO8601 (s : string) : Prop :=
  exists Y M D h m sec ms : string,
    s = Y ++ "-" ++ M ++ "-" ++ D ++ "T" ++ h ++ ":" ++ m ++ ":" ++ sec ++ "." ++ ms ++ "Z"
    /\ (digits 4 Y \/ exists Y' : string, digits 6 Y' /\ (Y = "+" ++ Y' \/ Y = "-" ++ Y'))
    /\ digits 2 M /\ digits 2 D /\ digits 2 h /\ digits 2 m /\ digits 2 sec /\ digits 3 ms.

(** The template of the system prompt with its three holes filled by given
    texts. *)
Definition template (name personality description : string) : string :=
  "You are " ++ name ++ ", a helpful AI agent with the following personality: "
    ++ personality ++ " " ++ description ++ nl
    ++ "    " ++ nl
    ++ "    When responding, always maintain your character and consider your knowledge about the Solana blockchain environment." ++ nl
    ++ "    Your answers should be concise, helpful, and accurate. If you don't know something, admit it rather than making up information." ++ nl
    ++ "    ".

(** ** The paths of the interaction handler *)

(** The call the handler makes to the provider in world [w]. *)
Definition providerParams (w : World) (name : string) (agentDetails : AgentDetails)
           (message : string) : OpenAI.Params :=
  completionParams (env w "OPENAI_MODEL") (systemPrompt name agentDetails) message.

(** What the handler returns and the trace it leaves, for each of its six
    paths. *)
Module Path.

Definition t : Type := ((Error.t + Response) * Trace)%type.

Definition refused (error : Error.t) : t :=
  (inr (validation_error (Error.message error)),
   [Log logger.warn
      ("Validation error for agent interaction: " ++ Error.message error) []]).

Definition failure_log (name : string) (fault : Error.t) : Effect :=
  Log logger.error ("Error in agent interaction: " ++ Error.message fault)
    [("agent", name); ("stack", Error.stack fault)].

Definition store_fault (name : string) (fault : Error.t) : t :=
  (inr interaction_failed, [DocGet "agents" name; failure_log name fault]).

Definition not_found (name : string) : t :=
  (inr (agent_not_found name),
   [DocGet "agents" name;
    Log logger.warn ("Agent not found for interaction: " ++ name) []]).

(** The trace up to the call to the provider. *)
Definition reaching_provider (w : World) (name : string) (agentDetails : AgentDetails)
           (message : string) : Trace :=
  [DocGet "agents" name;
   Log logger.info ("Processing interaction with agent: " ++ name) [];
   ChatCreate (providerParams w name agentDetails message)].

Definition provider_fault (w : World) (name : string) (agentDetails : AgentDetails)
           (message : string) (fault : Error.t) : t :=
  (inr interaction_failed,
   (reaching_provider w name agentDetails message ++ [failure_log name fault])%list).

Definition replied (w : World) (name : string) (openAIResponse : OpenAI.Completion.t)
  : Response :=
  json (ReplyBody name (agentReply openAIResponse) (Date.toISOString (now w))).

(** The trace up to the analytics write. *)
Definition reaching_analytics (w : World) (name : string) (agentDetails : AgentDetails)
           (message : string) (openAIResponse : OpenAI.Completion.t) : Trace :=
  (reaching_provider w name agentDetails message
     ++ [Log logger.info ("Agent interaction complete: " ++ name) [];
         CollectionAdd "analytics"
           (usageRecord name message (agentReply openAIResponse))])%list.

Definition recorded (w : World) (name : string) (agentDetails : AgentDetails)
           (message : string) (openAIResponse : OpenAI.Completion.t) : t :=
  (inr (replied w name openAIResponse),
   reaching_analytics w name agentDetails message openAIResponse).

Definition unrecorded (w : World) (name : string) (agentDetails : AgentDetails)
           (message : string) (openAIResponse : OpenAI.Completion.t)
           (fault : Error.t) : t :=
  (inr (replied w name openAIResponse),
   (reaching_analytics w name agentDetails message openAIResponse
      ++ [Log logger.error
            ("Failed to record analytics: " ++ Error.message fault) []])%list).

End Path.

(** The path a request takes is decided by the body and by the outcomes of
    the three calls, in this order. *)
Inductive Run (w : World) (name : string) (req_body : Json) : Path.t -> Prop :=
| Run_refused (error : Error.t) :
    interactSchema req_body = inl error ->
    Run w name req_body (Path.refused error)
| Run_store_fault (message : string) (fault : Error.t) :
    interactSchema req_body = inr message ->
    doc_get w "agents" name = inl fault ->
    Run w name req_body (Path.store_fault name fault)
| Run_not_found (message : string) :
    interactSchema req_body = inr message ->
    doc_get w "agents" name = inr absent ->
    Run w name req_body (Path.not_found name)
| Run_provider_fault (message : string) (agentDetails : AgentDetails) (fault : Error.t) :
    interactSchema req_body = inr message ->
    doc_get w "agents" name = inr (present agentDetails) ->
    chat_completions_create w (providerParams w name agentDetails message) = inl fault ->
    Run w name req_body (Path.provider_fault w name agentDetails message fault)
| Run_recorded (message : string) (agentDetails : AgentDetails)
               (openAIResponse : OpenAI.Completion.t) :
    interactSchema req_body = inr message ->
    doc_get w "agents" name = inr (present agentDetails) ->
    chat_completions_create w (providerParams w name agentDetails message)
      = inr openAIResponse ->
    collection_add w "analytics" (usageRecord name message (agentReply openAIResponse))
      = inr tt ->
    Run w name req_body (Path.recorded w name agentDetails message openAIResponse)
| Run_unrecorded (message : string) (agentDetails : AgentDetails)
                 (openAIResponse : OpenAI.Completion.t) (fault : Error.t) :
    interactSchema req_body = inr message ->
    doc_get w "agents" name = inr (present agentDetails) ->
    chat_completions_create w (providerParams w name agentDetails message)
      = inr openAIResponse ->
    collection_add w "analytics" (usageRecord name message (agentReply openAIResponse))
      = inl fault ->
    Run w name req_body (Path.unrecorded w name agentDetails message openAIResponse fault).

(** ** Sample data *)

Module Sample.

Definition Aura : AgentDetails :=
  {| personality := Some "Helpful and concise market analyst";
     description := Some "";
     others := [] |}.

Definition question : string := "What is the current market cap of Solana?".

Definition completion : OpenAI.Completion.t :=
  {| OpenAI.Completion.choices :=
       [ {| OpenAI.Completion.message :=
              Some {| OpenAI.Completion.content :=
                        Some "Solana's market capitalization is about $21.4 billion." |} |} ] |}.

Definition unavailable : Error.t :=
  Error.make "14 UNAVAILABLE: connection refused" "Error: 14 UNAVAILABLE".

(** A store that holds the agent [Aura] only, with the given outcomes for the
    provider call and the analytics write, and no environment variable set. *)
Definition world (chat : Error.t + OpenAI.Completion.t) (add : Error.t + unit) : World :=
  {| env := fun _ => None;
     doc_get := fun c id =>
                  if String.eqb c "agents" && String.eqb id "Aura"
                  then inr (present Aura) else inr absent;
     chat_completions_create := fun _ => chat;
     collection_add := fun _ _ => add;
     now := 1736944496789 |}.

End Sample.

(** ** The remaining handlers of the server *)

(** [app.get('/health')]: its body has three fields of its own. *)
Module Health.

Record Body : Type := { status : string; version : string; timestamp : string }.

Record Response : Type := { code : nat; body : Body }.

Definition handler : M Response :=
  now_iso <- new_Date_toISOString ;;
  ret {| code := 200;
         body := {| status := "healthy"; version := "1.2.4"; timestamp := now_iso |} |}.

End Health.

(** The error-handling middleware [app.use((err, req, res, next) => ...)]. *)
Definition errorHandler (err : Error.t) : M Response :=
  log logger.error ("Unhandled error: " ++ Error.message err)
    [("stack", Error.stack err)] ;;
  ret {| status := 500;
         body := ErrorBody "Internal server error" "An unexpected error occurred" |}.

(** The last middleware [app.use((req, res) => ...)], reached by the requests
    that no route answered. *)
Definition notFoundHandler (req_method req_path : string) : M Response :=
  log logger.warn ("Not found: " ++ req_method ++ " " ++ req_path) [] ;;
  ret {| status := 404;
         body := ErrorBody "Not found" "The requested endpoint does not exist" |}.

(** The bodies the interaction route accepts: an object whose only key is
    [message], a string of 1 to 1000 characters. *)
Definition acceptable (req_body : Json) : Prop :=
  exists (props : list (string * Json)) (s : string),
    req_body = JObj props
    /\ get "message" props = Some (JStr s)
    /\ 1 <= String.length s <= 1000
    /\ (forall k, In k (keys props) -> k = "message").

(** The lookups of documents a trace shows. *)
Definition store_reads (t : Trace) : list (string * string) :=
  flat_map (fun e =>
              match e with
              | DocGet c id => [(c, id)]
              | _ => []
              end) t.

(** ** The Firebase module *)

(** [firebase.js] runs once, when the server requires it: it picks a service
    account, initializes the Admin SDK and exports the Firestore instance. *)
Module Firebase.

(** The argument of [admin.credential.cert]: the parsed content of the
    environment variable, or the path of the local file. *)
Inductive ServiceAccount : Type :=
| FromObject (serviceAccount : Json)
| FromPath (serviceAccountPath : string).

(** The credential [admin.credential.cert] builds from a service account. *)
Inductive Credential : Type := cert (account : ServiceAccount).

(** [firebaseConfig]: [{}] or [{ credential }]. *)
Record Config : Type := { credential : option Credential }.

(** The exported Firestore instance. *)
Inductive Firestore : Type := db.

(** What the module finds when it is loaded.  A call resolves ([inr]) or
    throws ([inl]). *)
Record World : Type := {
  env : string -> option string;
  JSON_parse : string -> Error.t + Json;
  dirname : string;
  path_resolve : string -> string -> string;
  fs_existsSync : string -> bool;
  credential_cert : ServiceAccount -> Error.t + Credential;
  initializeApp : Config -> Error.t + unit;
  firestore : Error.t + Firestore;
  settings : Error.t + unit
}.

Inductive Effect : Type :=
| Log (level : logger.Level) (msg : string) (meta : list (string * string))
| Parse (text : string)
| ExistsSync (path : string)
| Cert (account : ServiceAccount)
| InitializeApp (config : Config)
| GetFirestore
| Settings.

Definition Trace : Type := list Effect.

(** The module's computations: they read the world, read and assign the
    variable [firebaseConfig], extend the trace and return or throw. *)
Definition M (A : Type) : Type :=
  World -> Config -> Trace -> (Error.t + A) * Config * Trace.

Definition ret {A} (a : A) : M A := fun _ c t => (inr a, c, t).

Definition throw {A} (e : Error.t) : M A := fun _ c t => (inl e, c, t).

Definition bind {A B} (m : M A) (k : A -> M B) : M B :=
  fun w c t =>
    match m w c t with
    | (inr a, c', t') => k a w c' t'
    | (inl e, c', t') => (inl e, c', t')
    end.

Definition try_catch {A} (m : M A) (h : Error.t -> M A) : M A :=
  fun w c t =>
    match m w c t with
    | (inr a, c', t') => (inr a, c', t')
    | (inl e, c', t') => h e w c' t'
    end.

Declare Scope firebase_scope.
Delimit Scope firebase_scope with firebase.

Notation "x <- m ;; k" := (bind m (fun x => k))
  (at level 61, m at next level, right associativity) : firebase_scope.
Notation "m ;; k" := (bind m (fun _ => k))
  (at level 61, right associativity) : firebase_scope.

Local Open Scope firebase_scope.

Definition perform {A} (e : Effect) (outcome : World -> Error.t + A) : M A :=
  fun w c t => (outcome w, c, (t ++ [e])%list).

Definition log (level : logger.Level) (msg : string) (meta : list (string * string))
  : M unit :=
  perform (Log level msg meta) (fun _ => inr tt).

Definition process_env (k : string) : M (option string) :=
  fun w c t => (inr (env w k), c, t).

(** [firebaseConfig = c]. *)
Definition assign (c : Config) : M unit := fun _ _ t => (inr tt, c, t).

(** The current value of [firebaseConfig]. *)
Definition read : M Config := fun _ c t => (inr c, c, t).

(** [new Error(msg)]; the stack of a fresh error is not read. *)
Definition new_Error (msg : string) : Error.t := Error.make msg "".

(** [process.env.K === s]. *)
Definition strict_equal (v : option string) (s : string) : bool :=
  match v with
  | Some x => String.eqb x s
  | None => false
  end.

(** The text of an environment variable when it is truthy: set and not
    empty. *)
Definition truthy (v : option string) : option string :=
  match v with
  | Some x => if String.eqb x "" then None else Some x
  | None => None
  end.

(** The body of the module: the outer [try] picks the credential and
    initializes the SDK, its [catch] rethrows in production only, and the
    Firestore instance is then taken, configured and exported. *)
Definition load : M Firestore :=
  try_catch
    (SERVICE_ACCOUNT_KEY <- process_env "SERVICE_ACCOUNT_KEY" ;;
     match truthy SERVICE_ACCOUNT_KEY with
     | Some key =>
         log logger.info
           "Initializing Firebase with service account from environment variable" [] ;;
         try_catch
           (serviceAccount <- perform (Parse key) (fun w => JSON_parse w key) ;;
            c <- perform (Cert (FromObject serviceAccount))
                   (fun w => credential_cert w (FromObject serviceAccount)) ;;
            assign {| credential := Some c |})
           (fun parseError =>
              log logger.error "Failed to parse SERVICE_ACCOUNT_KEY environment variable"
                [("error", Error.message parseError)] ;;
              throw (new_Error
                       "Invalid SERVICE_ACCOUNT_KEY environment variable format. Must be valid JSON."))
     | None =>
         serviceAccountPath <-
           (fun w => ret (path_resolve w (dirname w) "serviceAccountKey.json") w) ;;
         found <- perform (ExistsSync serviceAccountPath)
                    (fun w => inr (fs_existsSync w serviceAccountPath)) ;;
         if found : bool
         then
           log logger.info "Initializing Firebase with service account from local file" [] ;;
           c <- perform (Cert (FromPath serviceAccountPath))
                  (fun w => credential_cert w (FromPath serviceAccountPath)) ;;
           assign {| credential := Some c |}
         else
           throw (new_Error ("Service account file not found at: " ++ serviceAccountPath))
     end ;;
     firebaseConfig <- read ;;
     perform (InitializeApp firebaseConfig) (fun w => initializeApp w firebaseConfig) ;;
     log logger.info "Firebase Admin SDK initialized successfully" [])
    (fun error =>
       log logger.error "Failed to initialize Firebase" [("error", Error.message error)] ;;
       NODE_ENV <- process_env "NODE_ENV" ;;
       if strict_equal NODE_ENV "production"
       then throw error
       else log logger.warn
              "Running in development mode with Firebase initialization error. Some features may not work correctly."
              []) ;;
  instance <- perform GetFirestore firestore ;;
  perform Settings settings ;;
  ret instance.

(** Loading the module: [firebaseConfig] starts as [{}], the trace empty. *)
Definition run (w : World) : (Error.t + Firestore) * Config * Trace :=
  load w {| credential := None |} [].

(** What the module exports, when loading it does not throw. *)
Definition exported (w : World) : option Firestore :=
  match fst (fst (run w)) with
  | inr instance => Some instance
  | inl _ => None
  end.

(** The error that loading the module throws, when it does. *)
Definition thrown (w : World) : option Error.t :=
  match fst (fst (run w)) with
  | inr _ => None
  | inl e => Some e
  end.

Definition trace (w : World) : Trace := snd (run w).

(** The configurations passed to [admin.initializeApp]. *)
Definition init_calls (t : Trace) : list Config :=
  flat_map (fun e =>
              match e with
              | InitializeApp c => [c]
              | _ => []
              end) t.

(** The service accounts passed to [admin.credential.cert]. *)
Definition cert_calls (t : Trace) : list ServiceAccount :=
  flat_map (fun e =>
              match e with
              | Cert a => [a]
              | _ => []
              end) t.

(** The messages logged at a level, each with the [error] of its metadata. *)
Definition logged (level : logger.Level) (t : Trace) : list (string * list (string * string)) :=
  flat_map (fun e =>
              match e, level with
              | Log logger.info msg meta, logger.info
              | Log logger.warn msg meta, logger.warn
              | Log logger.error msg meta, logger.error => [(msg, meta)]
              | _, _ => []
              end) t.

Definition is_Parse (e : Effect) : bool :=
  match e with Parse _ => true | _ => false end.

Definition is_ExistsSync (e : Effect) : bool :=
  match e with ExistsSync _ => true | _ => false end.

Definition is_GetFirestore (e : Effect) : bool :=
  match e with GetFirestore => true | _ => false end.

(** The initialization went through: the SDK was initialized and said so. *)
Definition initialized (t : Trace) : bool :=
  existsb (fun e =>
             match e with
             | Log logger.info msg _ =>
                 String.eqb msg "Firebase Admin SDK initialized successfully"
             | _ => false
             end) t.

(** A sample environment: a key in the variable, no local file. *)
Definition sample (node_env : option string) (parse : Error.t + Json)
           (certified : bool) : World :=
  {| env := fun k =>
              if String.eqb k "SERVICE_ACCOUNT_KEY" then Some "{...}"
              else if String.eqb k "NODE_ENV" then node_env
              else None;
     JSON_parse := fun _ => parse;
     dirname := "/srv/aptix";
     path_resolve := fun d f => d ++ "/" ++ f;
     fs_existsSync := fun _ => false;
     credential_cert := fun a =>
                          if certified then inr (cert a)
                          else inl (Error.make "Service account object must contain a string project_id property" "");
     initializeApp := fun _ => inr tt;
     firestore := inr db;
     settings := inr tt |}.

(** A sample environment without the variable, the local file being there or
    not. *)
Definition sample_file (node_env : option string) (file : bool) : World :=
  {| env := fun k => if String.eqb k "NODE_ENV" then node_env else None;
     JSON_parse := fun _ => inl (Error.make "Unexpected end of JSON input" "");
     dirname := "/srv/aptix";
     path_resolve := fun d f => d ++ "/" ++ f;
     fs_existsSync := fun _ => file;
     credential_cert := fun a => inr (cert a);
     initializeApp := fun _ => inr tt;
     firestore := inr db;
     settings := inr tt |}.

End Firebase.

(** * Properties *)

(** ** The validation schema *)

Section Validation.

Lemma eqb_empty_length (s : string) :
  String.eqb s "" = Nat.eqb (String.length s) 0.
Proof. destruct s; reflexivity. Qed.

(** The rules of the schema accept exactly the lengths 1 to 1000. *)
Lemma check_all_interact (key s : string) :
  Joi.check_all key [Joi.min 1; Joi.max 1000] s = None <->
  1 <= String.length s <= 1000.
Proof.
  unfold Joi.check_all, Joi.check.
  destruct (Nat.ltb_spec (String.length s) 1) as [Hlo | Hlo].
  - split; [discriminate | lia].
  - destruct (Nat.ltb_spec 1000 (String.length s)) as [Hhi | Hhi].
    + split; [discriminate | lia].
    + split; [lia | reflexivity].
Qed.

(** A body that is accepted is an object whose [message] is a string of 1
    to 1000 characters and which has no other key; the validated message is
    that string. *)
Lemma interactSchema_accepts (req_body : Json) (s : string) :
  interactSchema req_body = inr s <->
  exists props,
    req_body = JObj props /\ get "message" props = Some (JStr s) /\
    1 <= String.length s <= 1000 /\ Joi.unprocessed "message" props = [].
Proof.
  unfold interactSchema, Joi.object, Joi.string_required. split.
  - destruct req_body as [ | | | | | props]; try discriminate.
    destruct (get "message" props) as [[ | | | s' | | ] | ] eqn:Hget; try discriminate.
    destruct (String.eqb s' "") eqn:Hempty; [discriminate |].
    destruct (Joi.check_all "message" _ s') eqn:Hrules; [discriminate |].
    destruct (Joi.unprocessed "message" props) eqn:Hunk; [| discriminate].
    intros [= <-]. exists props. apply check_all_interact in Hrules. auto.
  - intros (props & -> & -> & Hlen & ->).
    rewrite eqb_empty_length.
    destruct (Nat.eqb_spec (String.length s) 0) as [H0 | _]; [lia |].
    apply (check_all_interact "message") in Hlen. rewrite Hlen. reflexivity.
Qed.

(** The body [{ message: s }] with [s] of 1 to 1000 characters is accepted. *)
Lemma interactSchema_single (s : string) :
  1 <= String.length s <= 1000 ->
  interactSchema (JObj [("message", JStr s)]) = inr s.
Proof.
  intros Hlen. apply interactSchema_accepts.
  exists [("message", JStr s)]. repeat split; try reflexivity; apply Hlen.
Qed.

(** A body that is not accepted is refused with an error. *)
Lemma interactSchema_rejects (req_body : Json) :
  (forall s, interactSchema req_body <> inr s) ->
  exists error, interactSchema req_body = inl error.
Proof.
  intros Hno. destruct (interactSchema req_body) as [e | s] eqn:H.
  - now exists e.
  - now destruct (Hno s).
Qed.

Lemma message_rejected_refused (req_body : Json) :
  message_rejected req_body = true ->
  exists error, interactSchema req_body = inl error.
Proof.
  intros Hrej. apply interactSchema_rejects. intros s Hs.
  apply interactSchema_accepts in Hs as (props & -> & Hget & Hlen & _).
  unfold message_rejected, message_field in Hrej. rewrite Hget in Hrej.
  apply orb_true_iff in Hrej as [H0 | Hbig].
  - apply Nat.eqb_eq in H0. lia.
  - apply Nat.ltb_lt in Hbig. lia.
Qed.

Lemma unprocessed_In (k : string) (props : list (string * Json)) :
  In k (Joi.unprocessed "message" props) <-> In k (keys props) /\ k <> "message".
Proof.
  unfold Joi.unprocessed. rewrite filter_In, negb_true_iff.
  split; intros [Hin Hk]; split; auto.
  - intros ->. now rewrite String.eqb_refl in Hk.
  - now apply String.eqb_neq.
Qed.

Lemma unknown_key_refused (props : list (string * Json)) (k : string) :
  In k (keys props) -> k <> "message" ->
  exists error, interactSchema (JObj props) = inl error.
Proof.
  intros Hin Hk. apply interactSchema_rejects. intros s Hs.
  apply interactSchema_accepts in Hs as (props' & [= <-] & _ & _ & Hunk).
  assert (H : In k (Joi.unprocessed "message" props)) by now apply unprocessed_In.
  rewrite Hunk in H. destruct H.
Qed.

(** When the [message] of a body with other keys is itself acceptable, the
    error names the first of the other keys. *)
Lemma unknown_key_named (props : list (string * Json)) (k s : string) :
  In k (keys props) -> k <> "message" ->
  get "message" props = Some (JStr s) -> 1 <= String.length s <= 1000 ->
  exists k', In k' (keys props) /\ k' <> "message" /\
             interactSchema (JObj props) = inl (Joi.fail (Joi.label k' ++ " is not allowed")).
Proof.
  intros Hin Hk Hget Hlen.
  assert (Hunk : In k (Joi.unprocessed "message" props)) by now apply unprocessed_In.
  unfold interactSchema, Joi.object, Joi.string_required. rewrite Hget.
  rewrite eqb_empty_length.
  destruct (Nat.eqb_spec (String.length s) 0) as [H0 | _]; [lia |].
  apply (check_all_interact "message") in Hlen. rewrite Hlen.
  destruct (Joi.unprocessed "message" props) as [ | k' rest] eqn:Hrest; [destruct Hunk |].
  exists k'. assert (Hk' : In k' (Joi.unprocessed "message" props))
    by (rewrite Hrest; now left).
  apply unprocessed_In in Hk' as [Hin' Hne']. auto.
Qed.

End Validation.

(** The schema on sample bodies. *)

Example schema_missing :
  interactSchema (JObj []) = inl (Joi.fail (Joi.label "message" ++ " is required")).
Proof. reflexivity. Qed.

Example schema_not_an_object :
  interactSchema (JArr [JStr "hi"])
  = inl (Joi.fail (Joi.label "value" ++ " must be of type object")).
Proof. reflexivity. Qed.

Example schema_not_a_string :
  interactSchema (JObj [("message", JNum 42)])
  = inl (Joi.fail (Joi.label "message" ++ " must be a string")).
Proof. reflexivity. Qed.

Example schema_empty :
  interactSchema (JObj [("message", JStr "")])
  = inl (Joi.fail (Joi.label "message" ++ " is not allowed to be empty")).
Proof. reflexivity. Qed.

Example schema_1000 :
  let s := String.concat "" (repeat "a" 1000) in
  interactSchema (JObj [("message", JStr s)]) = inr s.
Proof. vm_compute. reflexivity. Qed.

Example schema_1001 :
  interactSchema (JObj [("message", JStr (String.concat "" (repeat "a" 1001)))])
  = inl (Joi.fail (Joi.label "message"
                     ++ " length must be less than or equal to 1000 characters long")).
Proof. vm_compute. reflexivity. Qed.

Example schema_unknown_key :
  interactSchema (JObj [("stream", JBool true); ("message", JStr "hi")])
  = inl (Joi.fail (Joi.label "stream" ++ " is not allowed")).
Proof. reflexivity. Qed.

(** An unknown key that is the empty string is reported as [value]. *)
Example schema_empty_key :
  interactSchema (JObj [("", JNum 1); ("message", JStr "hi")])
  = inl (Joi.fail (Joi.dquote ++ "value" ++ Joi.dquote ++ " is not allowed")).
Proof. reflexivity. Qed.

Example label_of_key :
  Joi.label "stream" = Joi.dquote ++ "stream" ++ Joi.dquote
  /\ Joi.label "" = Joi.dquote ++ "value" ++ Joi.dquote.
Proof. split; reflexivity. Qed.

(** The rule [min(1)] never fires: the empty string is refused before the
    rules run. *)
Lemma min_1_redundant (key s : string) :
  String.eqb s "" = false -> Joi.check key (Joi.min 1) s = None.
Proof.
  rewrite eqb_empty_length. intros Hne. apply Nat.eqb_neq in Hne.
  unfold Joi.check. destruct (Nat.ltb_spec (String.length s) 1); [lia | reflexivity].
Qed.

(** ** The runs of the handlers, path by path *)

#[local] Arguments systemPrompt : simpl never.
#[local] Arguments completionParams : simpl never.
#[local] Arguments providerParams : simpl never.
#[local] Arguments agentReply : simpl never.
#[local] Arguments usageRecord : simpl never.
#[local] Arguments Date.toISOString : simpl never.

Ltac run_handler :=
  unfold handle, try_catch, bind, ret, log, db_get, db_add, openai_create,
    process_env, new_Date_toISOString, perform; cbn.

Lemma handle_response (h : M Response) (w : World) (r : Response) (t : Trace) :
  handle h w = (inr r, t) -> response h w = Some r /\ trace h w = t.
Proof. unfold response, trace. now intros ->. Qed.

Section Runs.

Variable w : World.
Variable name : string.

(** The metadata route, when the agent is absent. *)
Lemma getAgent_not_found :
  doc_get w "agents" name = inr absent ->
  handle (getAgent name) w =
    (inr (agent_not_found name),
     [DocGet "agents" name; Log logger.warn ("Agent not found: " ++ name) []]).
Proof. intros Hdoc. unfold getAgent. run_handler. now rewrite Hdoc. Qed.

(** The interaction route: the body is refused. *)
Lemma interact_refused (req_body : Json) (error : Error.t) :
  interactSchema req_body = inl error ->
  handle (interact name req_body) w = Path.refused error.
Proof. intros Hval. unfold interact. now rewrite Hval. Qed.

(** The interaction route, once the body is accepted. *)

Variable req_body : Json.
Variable message : string.
Hypothesis Hvalid : interactSchema req_body = inr message.

Lemma interact_store_fault (fault : Error.t) :
  doc_get w "agents" name = inl fault ->
  handle (interact name req_body) w = Path.store_fault name fault.
Proof.
  intros Hdoc. unfold interact. rewrite Hvalid. run_handler. now rewrite Hdoc.
Qed.

Lemma interact_not_found :
  doc_get w "agents" name = inr absent ->
  handle (interact name req_body) w = Path.not_found name.
Proof.
  intros Hdoc. unfold interact. rewrite Hvalid. run_handler. now rewrite Hdoc.
Qed.

Variable agentDetails : AgentDetails.
Hypothesis Hfound : doc_get w "agents" name = inr (present agentDetails).

Lemma interact_provider_fault (fault : Error.t) :
  chat_completions_create w (providerParams w name agentDetails message) = inl fault ->
  handle (interact name req_body) w
  = Path.provider_fault w name agentDetails message fault.
Proof.
  intros Hchat. unfold interact. rewrite Hvalid. run_handler.
  rewrite Hfound. cbn. fold (providerParams w name agentDetails message).
  now rewrite Hchat.
Qed.

Variable openAIResponse : OpenAI.Completion.t.
Hypothesis Hreplied :
  chat_completions_create w (providerParams w name agentDetails message)
  = inr openAIResponse.

Lemma interact_recorded :
  collection_add w "analytics" (usageRecord name message (agentReply openAIResponse))
  = inr tt ->
  handle (interact name req_body) w
  = Path.recorded w name agentDetails message openAIResponse.
Proof.
  intros Hadd. unfold interact. rewrite Hvalid. run_handler.
  rewrite Hfound. cbn. fold (providerParams w name agentDetails message).
  rewrite Hreplied. cbn. now rewrite Hadd.
Qed.

Lemma interact_unrecorded (fault : Error.t) :
  collection_add w "analytics" (usageRecord name message (agentReply openAIResponse))
  = inl fault ->
  handle (interact name req_body) w
  = Path.unrecorded w name agentDetails message openAIResponse fault.
Proof.
  intros Hadd. unfold interact. rewrite Hvalid. run_handler.
  rewrite Hfound. cbn. fold (providerParams w name agentDetails message).
  rewrite Hreplied. cbn. now rewrite Hadd.
Qed.

(** Whatever the analytics write does, the handler answers with the reply. *)
Lemma interact_replied :
  response (interact name req_body) w = Some (Path.replied w name openAIResponse).
Proof.
  destruct (collection_add w "analytics"
              (usageRecord name message (agentReply openAIResponse)))
    as [fault | []] eqn:Hadd.
  - now rewrite (proj1 (handle_response _ _ _ _ (interact_unrecorded fault Hadd))).
  - now rewrite (proj1 (handle_response _ _ _ _ (interact_recorded Hadd))).
Qed.

End Runs.

(** Every request takes one of the six paths: the handler always answers. *)
Lemma interact_Run (w : World) (name : string) (req_body : Json) :
  Run w name req_body (handle (interact name req_body) w).
Proof.
  destruct (interactSchema req_body) as [error | message] eqn:Hvalid.
  { rewrite (interact_refused w name req_body error Hvalid). now constructor. }
  destruct (doc_get w "agents" name) as [fault | [ | agentDetails]] eqn:Hdoc.
  { rewrite (interact_store_fault w name req_body message Hvalid fault Hdoc).
    econstructor; eassumption. }
  { rewrite (interact_not_found w name req_body message Hvalid Hdoc).
    econstructor; eassumption. }
  destruct (chat_completions_create w (providerParams w name agentDetails message))
    as [fault | openAIResponse] eqn:Hchat.
  { rewrite (interact_provider_fault w name req_body message Hvalid
               agentDetails Hdoc fault Hchat).
    econstructor; eassumption. }
  destruct (collection_add w "analytics"
              (usageRecord name message (agentReply openAIResponse)))
    as [fault | []] eqn:Hadd.
  - rewrite (interact_unrecorded w name req_body message Hvalid agentDetails Hdoc
               openAIResponse Hchat fault Hadd).
    econstructor; eassumption.
  - rewrite (interact_recorded w name req_body message Hvalid agentDetails Hdoc
               openAIResponse Hchat Hadd).
    econstructor; eassumption.
Qed.

(** The handlers always answer: no fault escapes them. *)
Lemma interact_answers (w : World) (name : string) (req_body : Json) :
  exists r, response (interact name req_body) w = Some r.
Proof.
  unfold response. destruct (interact_Run w name req_body); eexists; reflexivity.
Qed.

Lemma getAgent_answers (w : World) (name : string) :
  exists r, response (getAgent name) w = Some r.
Proof.
  unfold response, getAgent. run_handler.
  destruct (doc_get w "agents" name) as [fault | [ | agentDetails]];
    eexists; reflexivity.
Qed.

(** The metadata route returns the stored fields as they are. *)
Lemma getAgent_found (w : World) (name : string) (agentDetails : AgentDetails) :
  doc_get w "agents" name = inr (present agentDetails) ->
  response (getAgent name) w = Some {| status := 200; body := DetailsBody agentDetails |}.
Proof.
  intros Hfound. unfold response, getAgent. run_handler. now rewrite Hfound.
Qed.

(** A full run on the sample data. *)
Example sample_run :
  handle (interact "Aura" (JObj [("message", JStr Sample.question)]))
    (Sample.world (inr Sample.completion) (inr tt))
  = (inr {| status := 200;
            body := ReplyBody "Aura"
                      "Solana's market capitalization is about $21.4 billion."
                      "2025-01-15T12:34:56.789Z" |},
     [DocGet "agents" "Aura";
      Log logger.info "Processing interaction with agent: Aura" [];
      ChatCreate
        {| OpenAI.model := "gpt-3.5-turbo";
           OpenAI.messages :=
             [ {| OpenAI.role := "system";
                  OpenAI.content :=
                    template "Aura" "Helpful and concise market analyst" "" |};
               {| OpenAI.role := "user";
                  OpenAI.content := "What is the current market cap of Solana?" |} ];
           OpenAI.max_tokens := 500;
           OpenAI.temperature := 0.7 |};
      Log logger.info "Agent interaction complete: Aura" [];
      CollectionAdd "analytics"
        {| agent := "Aura";
           timestamp := serverTimestamp;
           messageLength := 41;
           responseLength := 54;
           type := "interaction" |}]).
Proof. vm_compute. reflexivity. Qed.

(** ** The reply and the timestamp *)

Section Reply.

Lemma or_else_nonempty (v : option string) (d : string) :
  d <> "" -> or_else v d <> "".
Proof.
  intros Hd. unfold or_else. destruct v as [s | ]; [| exact Hd].
  destruct (String.eqb_spec s ""); [exact Hd | assumption].
Qed.

(** The reply is never the empty string. *)
Lemma agentReply_nonempty (openAIResponse : OpenAI.Completion.t) :
  agentReply openAIResponse <> "".
Proof. apply or_else_nonempty. discriminate. Qed.

(** The reply is the provider's text when there is one, and the fixed
    sentence when there is none or it is empty. *)
Lemma agentReply_cases (openAIResponse : OpenAI.Completion.t) :
  match choices_0_message_content openAIResponse with
  | Some text =>
      if String.eqb text ""
      then agentReply openAIResponse
           = "I'm sorry, I couldn't process your request at this time."
      else agentReply openAIResponse = text
  | None =>
      agentReply openAIResponse
      = "I'm sorry, I couldn't process your request at this time."
  end.
Proof.
  unfold agentReply, or_else.
  destruct (choices_0_message_content openAIResponse) as [text | ]; [| reflexivity].
  destruct (String.eqb text ""); reflexivity.
Qed.

Lemma length_append (s1 s2 : string) :
  String.length (s1 ++ s2) = String.length s1 + String.length s2.
Proof. induction s1 as [ | c s1 IH]; cbn; [reflexivity | now rewrite IH]. Qed.

Lemma all_digits_append (s1 s2 : string) :
  all_digits (s1 ++ s2) = all_digits s1 && all_digits s2.
Proof.
  induction s1 as [ | c s1 IH]; cbn; [reflexivity |].
  now rewrite IH, andb_assoc.
Qed.

Lemma digit_is_digit (n : Z) : is_digit (Date.digit n) = true.
Proof.
  unfold is_digit, Date.digit.
  assert (H : (0 <= n mod 10 < 10)%Z) by (apply Z.mod_pos_bound; lia).
  rewrite nat_ascii_embedding by lia.
  apply andb_true_iff. split; apply Nat.leb_le; lia.
Qed.

Lemma pad_digits (width : nat) (n : Z) : digits width (Date.pad width n).
Proof.
  unfold digits. revert n.
  induction width as [ | width IH]; intros n; cbn [Date.pad].
  - split; reflexivity.
  - destruct (IH (n / 10)%Z) as [Hlen Hall]. split.
    + rewrite length_append, Hlen. cbn. lia.
    + rewrite all_digits_append, Hall. cbn [all_digits andb].
      now rewrite digit_is_digit.
Qed.

(** [toISOString] always yields the ISO-8601 shape. *)
Lemma toISOString_ISO8601 (t : Z) : ISO8601 (Date.toISOString t).
Proof.
  unfold Date.toISOString.
  destruct (Date.civil (t / Date.msPerDay)) as [[y m] d].
  set (ms := (t mod Date.msPerDay)%Z).
  exists (Date.year y), (Date.pad 2 m), (Date.pad 2 d),
    (Date.pad 2 (ms / 3600000)), (Date.pad 2 (ms / 60000 mod 60)),
    (Date.pad 2 (ms / 1000 mod 60)), (Date.pad 3 (ms mod 1000)).
  split; [reflexivity |].
  split; [| repeat split; apply pad_digits].
  unfold Date.year.
  destruct ((0 <=? y)%Z && (y <=? 9999)%Z); [left; apply pad_digits |].
  right. exists (Date.pad 6 (Z.abs y)). split; [apply pad_digits |].
  destruct (y <? 0)%Z; [right | left]; reflexivity.
Qed.

End Reply.

(** [toISOString] on sample instants, among them the two ends of the range of
    a [Date]. *)

Example toISOString_epoch : Date.toISOString 0 = "1970-01-01T00:00:00.000Z".
Proof. reflexivity. Qed.

Example toISOString_before_epoch : Date.toISOString (-1) = "1969-12-31T23:59:59.999Z".
Proof. reflexivity. Qed.

Example toISOString_2025 : Date.toISOString 1736944496789 = "2025-01-15T12:34:56.789Z".
Proof. reflexivity. Qed.

Example toISOString_leap_day : Date.toISOString 1709251199999 = "2024-02-29T23:59:59.999Z".
Proof. reflexivity. Qed.

Example toISOString_year_10000 :
  Date.toISOString 253402300800000 = "+010000-01-01T00:00:00.000Z".
Proof. reflexivity. Qed.

Example toISOString_max : Date.toISOString 8640000000000000 = "+275760-09-13T00:00:00.000Z".
Proof. reflexivity. Qed.

Example toISOString_min :
  Date.toISOString (-8640000000000000) = "-271821-04-20T00:00:00.000Z".
Proof. reflexivity. Qed.

(** ** The interaction endpoint *)

(** C1. When the body is valid, the agent exists and the provider call
    succeeds, an analytics write that throws leaves the response as it is:
    status 200 with the reply envelope, the same response as in the world
    where the write succeeds; the failure goes to the error log, which holds
    that one line. *)
Theorem analytics_failure_isolated
        (w : World) (name : string) (req_body : Json) (message : string)
        (agentDetails : AgentDetails) (openAIResponse : OpenAI.Completion.t)
        (fault : Error.t) :
  interactSchema req_body = inr message ->
  doc_get w "agents" name = inr (present agentDetails) ->
  chat_completions_create w (providerParams w name agentDetails message)
    = inr openAIResponse ->
  collection_add w "analytics" (usageRecord name message (agentReply openAIResponse))
    = inl fault ->
  response (interact name req_body) w
    = Some {| status := 200;
              body := ReplyBody name (agentReply openAIResponse)
                        (Date.toISOString (now w)) |}
  /\ response (interact name req_body) w
     = response (interact name req_body) (with_collection_add w (fun _ _ => inr tt))
  /\ logged logger.error (trace (interact name req_body) w)
     = ["Failed to record analytics: " ++ Error.message fault].
Proof.
  intros Hvalid Hfound Hchat Hadd.
  destruct (handle_response _ _ _ _
              (interact_unrecorded w name req_body message Hvalid agentDetails Hfound
                 openAIResponse Hchat fault Hadd)) as [Hres Htrace].
  rewrite Hres, Htrace. repeat split.
  symmetry.
  exact (interact_replied (with_collection_add w (fun _ _ => inr tt)) name req_body
           message Hvalid agentDetails Hfound openAIResponse Hchat).
Qed.

Lemma analytics_failure_isolated_witness :
  let w := Sample.world (inr Sample.completion) (inl Sample.unavailable) in
  let req_body := JObj [("message", JStr Sample.question)] in
  response (interact "Aura" req_body) w
    = Some {| status := 200;
              body := ReplyBody "Aura" (agentReply Sample.completion)
                        (Date.toISOString (now w)) |}
  /\ response (interact "Aura" req_body) w
     = response (interact "Aura" req_body) (with_collection_add w (fun _ _ => inr tt))
  /\ logged logger.error (trace (interact "Aura" req_body) w)
     = ["Failed to record analytics: " ++ Error.message Sample.unavailable].
Proof.
  exact (analytics_failure_isolated
           (Sample.world (inr Sample.completion) (inl Sample.unavailable))
           "Aura" (JObj [("message", JStr Sample.question)]) Sample.question
           Sample.Aura Sample.completion Sample.unavailable
           eq_refl eq_refl eq_refl eq_refl).
Defined.

(** C2. A body whose [message] is missing, is not a string, or has length 0
    or more than 1000 is answered with status 400 and the body
    [{error: "Validation error", message}], where [message] is the schema's
    error message; the trace holds no call to the document store or to the
    provider, only the warning. *)
Theorem invalid_message_rejected (w : World) (name : string) (req_body : Json) :
  message_rejected req_body = true ->
  exists error,
    interactSchema req_body = inl error
    /\ response (interact name req_body) w
       = Some {| status := 400;
                 body := ErrorBody "Validation error" (Error.message error) |}
    /\ calls (trace (interact name req_body) w) = [].
Proof.
  intros Hrej. destruct (message_rejected_refused req_body Hrej) as [error Hval].
  exists error. split; [exact Hval |].
  destruct (handle_response _ _ _ _ (interact_refused w name req_body error Hval))
    as [Hres Htrace].
  rewrite Hres, Htrace. split; reflexivity.
Qed.

Lemma invalid_message_rejected_witness :
  exists error,
    interactSchema (JObj [("message", JStr "")]) = inl error
    /\ response (interact "Aura" (JObj [("message", JStr "")]))
         (Sample.world (inr Sample.completion) (inr tt))
       = Some {| status := 400;
                 body := ErrorBody "Validation error" (Error.message error) |}
    /\ calls (trace (interact "Aura" (JObj [("message", JStr "")]))
                (Sample.world (inr Sample.completion) (inr tt))) = [].
Proof.
  exact (invalid_message_rejected (Sample.world (inr Sample.completion) (inr tt))
           "Aura" (JObj [("message", JStr "")]) eq_refl).
Defined.

(** C3. For a body [{message}] with a message of 1 to 1000 characters and an
    agent present in the store, when the provider call succeeds the response
    has status 200 and a body [{agent, reply, timestamp}] whose [agent] is the
    name of the path and whose [reply] is not empty: it is the provider's
    text, or the sentence "I'm sorry, I couldn't process your request at this
    time." when the provider returned no text or an empty one. *)
Theorem valid_interaction_replies
        (w : World) (name message : string) (agentDetails : AgentDetails)
        (openAIResponse : OpenAI.Completion.t) :
  1 <= String.length message <= 1000 ->
  doc_get w "agents" name = inr (present agentDetails) ->
  chat_completions_create w (providerParams w name agentDetails message)
    = inr openAIResponse ->
  exists reply timestamp : string,
    response (interact name (JObj [("message", JStr message)])) w
      = Some {| status := 200; body := ReplyBody name reply timestamp |}
    /\ reply <> ""
    /\ match choices_0_message_content openAIResponse with
       | Some text =>
           if String.eqb text ""
           then reply = "I'm sorry, I couldn't process your request at this time."
           else reply = text
       | None => reply = "I'm sorry, I couldn't process your request at this time."
       end.
Proof.
  intros Hlen Hfound Hchat.
  exists (agentReply openAIResponse), (Date.toISOString (now w)).
  split; [| split].
  - exact (interact_replied w name _ message (interactSchema_single message Hlen)
             agentDetails Hfound openAIResponse Hchat).
  - apply agentReply_nonempty.
  - apply agentReply_cases.
Qed.

Lemma valid_interaction_replies_witness :
  exists reply timestamp : string,
    response (interact "Aura" (JObj [("message", JStr Sample.question)]))
      (Sample.world (inr Sample.completion) (inr tt))
      = Some {| status := 200; body := ReplyBody "Aura" reply timestamp |}
    /\ reply <> ""
    /\ match choices_0_message_content Sample.completion with
       | Some text =>
           if String.eqb text ""
           then reply = "I'm sorry, I couldn't process your request at this time."
           else reply = text
       | None => reply = "I'm sorry, I couldn't process your request at this time."
       end.
Proof.
  apply (valid_interaction_replies (Sample.world (inr Sample.completion) (inr tt))
           "Aura" Sample.question Sample.Aura Sample.completion).
  - vm_compute. lia.
  - reflexivity.
  - reflexivity.
Defined.

(** C4. When the body is valid and the agent exists, a provider call that
    throws is answered with status 500 and the fixed body
    [{error: "Internal server error", message: "An unexpected error occurred
    during agent interaction"}], whatever the fault's own message is, and
    nothing is handed to the analytics collection. *)
Theorem provider_failure_500
        (w : World) (name : string) (req_body : Json) (message : string)
        (agentDetails : AgentDetails) (fault : Error.t) :
  interactSchema req_body = inr message ->
  doc_get w "agents" name = inr (present agentDetails) ->
  chat_completions_create w (providerParams w name agentDetails message) = inl fault ->
  response (interact name req_body) w
    = Some {| status := 500;
              body := ErrorBody "Internal server error"
                        "An unexpected error occurred during agent interaction" |}
  /\ analytics_records (trace (interact name req_body) w) = [].
Proof.
  intros Hvalid Hfound Hchat.
  destruct (handle_response _ _ _ _
              (interact_provider_fault w name req_body message Hvalid agentDetails
                 Hfound fault Hchat)) as [Hres Htrace].
  rewrite Hres, Htrace. split; reflexivity.
Qed.

Lemma provider_failure_500_witness :
  let w := Sample.world (inl Sample.unavailable) (inr tt) in
  let req_body := JObj [("message", JStr Sample.question)] in
  response (interact "Aura" req_body) w
    = Some {| status := 500;
              body := ErrorBody "Internal server error"
                        "An unexpected error occurred during agent interaction" |}
  /\ analytics_records (trace (interact "Aura" req_body) w) = [].
Proof.
  exact (provider_failure_500 (Sample.world (inl Sample.unavailable) (inr tt))
           "Aura" (JObj [("message", JStr Sample.question)]) Sample.question
           Sample.Aura Sample.unavailable eq_refl eq_refl eq_refl).
Defined.

(** ** The system prompt *)

(** The prompt depends on the agent's details through the two persona fields
    only. *)
Lemma systemPrompt_persona (name : string) (details1 details2 : AgentDetails) :
  personality details1 = personality details2 ->
  description details1 = description details2 ->
  systemPrompt name details1 = systemPrompt name details2.
Proof. unfold systemPrompt. now intros -> ->. Qed.

(** The prompt of the sample agent, and the prompt of an agent without persona
    fields. *)

Example systemPrompt_Aura :
  systemPrompt "Aura" Sample.Aura
  = "You are Aura, a helpful AI agent with the following personality: Helpful and concise market analyst "
      ++ nl ++ "    " ++ nl
      ++ "    When responding, always maintain your character and consider your knowledge about the Solana blockchain environment."
      ++ nl
      ++ "    Your answers should be concise, helpful, and accurate. If you don't know something, admit it rather than making up information."
      ++ nl ++ "    ".
Proof. reflexivity. Qed.

Example systemPrompt_bare :
  systemPrompt "Nova" {| personality := None; description := None; others := [] |}
  = "You are Nova, a helpful AI agent with the following personality: neutral and general. "
      ++ nl ++ "    " ++ nl
      ++ "    When responding, always maintain your character and consider your knowledge about the Solana blockchain environment."
      ++ nl
      ++ "    Your answers should be concise, helpful, and accurate. If you don't know something, admit it rather than making up information."
      ++ nl ++ "    ".
Proof. reflexivity. Qed.

(** The handler calls the provider at most once, with [providerParams]. *)
Lemma provider_calls_interact (w : World) (name : string) (req_body : Json) :
  provider_calls (trace (interact name req_body) w) = []
  \/ exists message agentDetails,
       interactSchema req_body = inr message
       /\ doc_get w "agents" name = inr (present agentDetails)
       /\ provider_calls (trace (interact name req_body) w)
          = [providerParams w name agentDetails message].
Proof.
  unfold trace. destruct (interact_Run w name req_body);
    try (left; reflexivity); right; exists message, agentDetails; auto.
Qed.

(** C5. The system prompt is a function of the name, the personality and the
    description: two requests for the same name whose agents have the same
    personality and the same description send the same system prompt to the
    provider, whatever else differs (the other fields, the message, the
    environment, the clock).  The prompt is the template filled with the name,
    with the personality, or "neutral and general." when the personality is
    missing or empty, and with the description, or the empty string when the
    description is missing. *)
Theorem prompt_is_function_of_triple
        (w1 w2 : World) (name : string) (req_body1 req_body2 : Json)
        (message1 message2 : string) (details1 details2 : AgentDetails) :
  interactSchema req_body1 = inr message1 ->
  interactSchema req_body2 = inr message2 ->
  doc_get w1 "agents" name = inr (present details1) ->
  doc_get w2 "agents" name = inr (present details2) ->
  personality details1 = personality details2 ->
  description details1 = description details2 ->
  system_prompts (trace (interact name req_body1) w1) = [systemPrompt name details1]
  /\ system_prompts (trace (interact name req_body2) w2)
     = system_prompts (trace (interact name req_body1) w1)
  /\ systemPrompt name details1
     = template name
         (match personality details1 with
          | Some text => if String.eqb text "" then "neutral and general." else text
          | None => "neutral and general."
          end)
         (match description details1 with
          | Some text => text
          | None => ""
          end).
Proof.
  intros Hvalid1 Hvalid2 Hfound1 Hfound2 Hpers Hdesc.
  assert (Hsent : forall w req_body message details,
             interactSchema req_body = inr message ->
             doc_get w "agents" name = inr (present details) ->
             system_prompts (trace (interact name req_body) w)
             = [systemPrompt name details]).
  { intros w req_body message details Hvalid Hfound. unfold trace.
    destruct (interact_Run w name req_body) as
      [ error Hv | m fault Hv Hd | m Hv Hd | m d fault Hv Hd Hc
      | m d r Hv Hd Hc Ha | m d r fault Hv Hd Hc Ha ];
      rewrite Hv in Hvalid; try discriminate;
      rewrite Hd in Hfound; try discriminate;
      injection Hfound as <-; reflexivity. }
  rewrite (Hsent w1 req_body1 message1 details1 Hvalid1 Hfound1).
  rewrite (Hsent w2 req_body2 message2 details2 Hvalid2 Hfound2).
  split; [reflexivity |]. split.
  - f_equal. symmetry. now apply systemPrompt_persona.
  - unfold systemPrompt, template, or_else.
    destruct (personality details1) as [text | ];
      destruct (description details1) as [[ | c text'] | ]; reflexivity.
Qed.

Lemma prompt_is_function_of_triple_witness :
  let w1 := Sample.world (inr Sample.completion) (inr tt) in
  let w2 := with_env (Sample.world (inl Sample.unavailable) (inr tt))
                     (fun _ => Some "gpt-4") in
  let req_body1 := JObj [("message", JStr Sample.question)] in
  let req_body2 := JObj [("message", JStr "hi")] in
  system_prompts (trace (interact "Aura" req_body1) w1) = [systemPrompt "Aura" Sample.Aura]
  /\ system_prompts (trace (interact "Aura" req_body2) w2)
     = system_prompts (trace (interact "Aura" req_body1) w1)
  /\ systemPrompt "Aura" Sample.Aura
     = template "Aura" "Helpful and concise market analyst" "".
Proof.
  exact (prompt_is_function_of_triple
           (Sample.world (inr Sample.completion) (inr tt))
           (with_env (Sample.world (inl Sample.unavailable) (inr tt))
                     (fun _ => Some "gpt-4"))
           "Aura" (JObj [("message", JStr Sample.question)])
           (JObj [("message", JStr "hi")]) Sample.question "hi"
           Sample.Aura Sample.Aura eq_refl eq_refl eq_refl eq_refl eq_refl eq_refl).
Defined.

(** ** Absent agents *)

(** C6. For a name that the store does not hold, the metadata route and the
    interaction route (with a valid body) both answer with status 404 and the
    body [{error: "Agent not found", message: "The agent '<name>' does not
    exist in the database"}]; for the name [unknown-agent] and the body
    [{message: "hi"}] the message is "The agent 'unknown-agent' does not exist
    in the database". *)
Theorem absent_agent_404 (w : World) (name : string) :
  doc_get w "agents" name = inr absent ->
  response (getAgent name) w
    = Some {| status := 404;
              body := ErrorBody "Agent not found"
                        ("The agent '" ++ name ++ "' does not exist in the database") |}
  /\ (forall (req_body : Json) (message : string),
        interactSchema req_body = inr message ->
        response (interact name req_body) w
        = Some {| status := 404;
                  body := ErrorBody "Agent not found"
                            ("The agent '" ++ name
                               ++ "' does not exist in the database") |})
  /\ (name = "unknown-agent" ->
      response (interact name (JObj [("message", JStr "hi")])) w
      = Some {| status := 404;
                body := ErrorBody "Agent not found"
                          "The agent 'unknown-agent' does not exist in the database" |}).
Proof.
  intros Habsent.
  assert (Hpost : forall req_body message,
             interactSchema req_body = inr message ->
             response (interact name req_body) w = Some (agent_not_found name)).
  { intros req_body message Hvalid.
    exact (proj1 (handle_response _ _ _ _
                    (interact_not_found w name req_body message Hvalid Habsent))). }
  split; [| split].
  - exact (proj1 (handle_response _ _ _ _ (getAgent_not_found w name Habsent))).
  - exact Hpost.
  - intros Hname. rewrite (Hpost (JObj [("message", JStr "hi")]) "hi" eq_refl).
    now rewrite Hname.
Qed.

Lemma absent_agent_404_witness :
  let w := Sample.world (inr Sample.completion) (inr tt) in
  response (getAgent "unknown-agent") w
    = Some {| status := 404;
              body := ErrorBody "Agent not found"
                        "The agent 'unknown-agent' does not exist in the database" |}
  /\ response (interact "unknown-agent" (JObj [("message", JStr "hi")])) w
     = Some {| status := 404;
               body := ErrorBody "Agent not found"
                         "The agent 'unknown-agent' does not exist in the database" |}.
Proof.
  destruct (absent_agent_404 (Sample.world (inr Sample.completion) (inr tt))
              "unknown-agent" eq_refl) as (Hget & _ & Hpost).
  split; [exact Hget | exact (Hpost eq_refl)].
Defined.

(** ** The parameters of the provider call *)

(** C7, as the code has it.  In every call to the provider the model is the
    value of the environment variable [OPENAI_MODEL] when it is set and not
    empty and "gpt-3.5-turbo" otherwise, while the limit on output tokens and
    the temperature are the literals 500 and 0.7, which no configuration
    changes. *)
Theorem provider_parameters
        (w : World) (name : string) (req_body : Json) (p : OpenAI.Params) :
  In p (provider_calls (trace (interact name req_body) w)) ->
  OpenAI.model p = or_else (env w "OPENAI_MODEL") "gpt-3.5-turbo"
  /\ OpenAI.max_tokens p = 500
  /\ OpenAI.temperature p = 0.7%Q.
Proof.
  intros Hin.
  destruct (provider_calls_interact w name req_body)
    as [Hnone | (message & agentDetails & _ & _ & Hone)].
  - rewrite Hnone in Hin. destruct Hin.
  - rewrite Hone in Hin. destruct Hin as [<- | []]. repeat split.
Qed.

Lemma provider_parameters_witness :
  let w := with_env (Sample.world (inr Sample.completion) (inr tt))
                    (fun k => if String.eqb k "OPENAI_MODEL" then Some "gpt-4" else None) in
  let p := providerParams w "Aura" Sample.Aura Sample.question in
  OpenAI.model p = "gpt-4" /\ OpenAI.max_tokens p = 500 /\ OpenAI.temperature p = 0.7%Q.
Proof.
  apply (provider_parameters
           (with_env (Sample.world (inr Sample.completion) (inr tt))
                     (fun k => if String.eqb k "OPENAI_MODEL" then Some "gpt-4" else None))
           "Aura" (JObj [("message", JStr Sample.question)])).
  left. reflexivity.
Defined.

(** Against C7 as stated: there is no configuration of the environment that
    changes the limit on output tokens or the temperature of the call. *)
Lemma completion_limits_not_configurable :
  ~ exists (w : World) (e : string -> option string) (name : string) (req_body : Json)
           (p p' : OpenAI.Params),
      In p (provider_calls (trace (interact name req_body) w))
      /\ In p' (provider_calls (trace (interact name req_body) (with_env w e)))
      /\ (OpenAI.max_tokens p <> OpenAI.max_tokens p'
          \/ OpenAI.temperature p <> OpenAI.temperature p').
Proof.
  intros (w & e & name & req_body & p & p' & Hp & Hp' & Hdiff).
  destruct (provider_calls_interact w name req_body)
    as [Hnone | (m & d & _ & _ & Hone)].
  { rewrite Hnone in Hp. destruct Hp. }
  destruct (provider_calls_interact (with_env w e) name req_body)
    as [Hnone' | (m' & d' & _ & _ & Hone')].
  { rewrite Hnone' in Hp'. destruct Hp'. }
  rewrite Hone in Hp. rewrite Hone' in Hp'.
  destruct Hp as [<- | []]. destruct Hp' as [<- | []].
  destruct Hdiff as [Hdiff | Hdiff]; apply Hdiff; reflexivity.
Qed.

(** ** The usage record *)

(** C8, as the code has it.  With the agent "Aura" stored with the personality
    "Helpful and concise market analyst" and the description "", the message
    "What is the current market cap of Solana?", a provider call that
    succeeds and an analytics write that succeeds, the response has status
    200 and the body [{agent: "Aura", reply, timestamp}] with a reply that is
    not empty and a timestamp of the ISO-8601 shape, and exactly one record
    is handed to the analytics collection; its [messageLength] is 41, the
    length of the message. *)
Theorem aura_scenario
        (w : World) (other_fields : list (string * Json))
        (openAIResponse : OpenAI.Completion.t) :
  let details :=
    {| personality := Some "Helpful and concise market analyst";
       description := Some "";
       others := other_fields |} in
  let question := "What is the current market cap of Solana?" in
  doc_get w "agents" "Aura" = inr (present details) ->
  chat_completions_create w (providerParams w "Aura" details question)
    = inr openAIResponse ->
  collection_add w "analytics" (usageRecord "Aura" question (agentReply openAIResponse))
    = inr tt ->
  exists (reply timestamp : string) (record : AnalyticsRecord),
    response (interact "Aura" (JObj [("message", JStr question)])) w
      = Some {| status := 200; body := ReplyBody "Aura" reply timestamp |}
    /\ reply <> ""
    /\ ISO8601 timestamp
    /\ analytics_records (trace (interact "Aura" (JObj [("message", JStr question)])) w)
       = [record]
    /\ messageLength record = 41.
Proof.
  intros details question Hfound Hchat Hadd.
  exists (agentReply openAIResponse), (Date.toISOString (now w)),
    (usageRecord "Aura" question (agentReply openAIResponse)).
  destruct (handle_response _ _ _ _
              (interact_recorded w "Aura" (JObj [("message", JStr question)]) question
                 eq_refl details Hfound openAIResponse Hchat Hadd)) as [Hres Htrace].
  rewrite Hres, Htrace. repeat split.
  - apply agentReply_nonempty.
  - apply toISOString_ISO8601.
Qed.

Lemma aura_scenario_witness :
  exists (reply timestamp : string) (record : AnalyticsRecord),
    response (interact "Aura" (JObj [("message", JStr Sample.question)]))
      (Sample.world (inr Sample.completion) (inr tt))
      = Some {| status := 200; body := ReplyBody "Aura" reply timestamp |}
    /\ reply <> ""
    /\ ISO8601 timestamp
    /\ analytics_records
         (trace (interact "Aura" (JObj [("message", JStr Sample.question)]))
            (Sample.world (inr Sample.completion) (inr tt)))
       = [record]
    /\ messageLength record = 41.
Proof.
  exact (aura_scenario (Sample.world (inr Sample.completion) (inr tt)) []
           Sample.completion eq_refl eq_refl eq_refl).
Defined.

(** Against C8 as stated: in that scenario the record handed to the analytics
    collection does not have [messageLength] 42. *)
Lemma aura_messageLength_not_42 :
  ~ exists record : AnalyticsRecord,
      analytics_records
        (trace (interact "Aura"
                  (JObj [("message", JStr "What is the current market cap of Solana?")]))
           (Sample.world (inr Sample.completion) (inr tt)))
      = [record]
      /\ messageLength record = 42.
Proof.
  intros (record & Hrecords & Hlength).
  vm_compute in Hrecords. injection Hrecords as <-.
  vm_compute in Hlength. discriminate Hlength.
Qed.

(** C10. When the interaction succeeds (status 200), exactly one record is
    handed to the analytics collection: its [agent] is the name of the path,
    its [messageLength] the length of the validated message, its
    [responseLength] the length of the reply of the response body, and its
    [type] is "interaction".  The reply is the one computed from the
    provider's completion, so that when the completion has no text or an empty
    one the length recorded is that of the fixed sentence, 56. *)
Theorem analytics_record_fields
        (w : World) (name : string) (req_body : Json) (r : Response) :
  response (interact name req_body) w = Some r ->
  status r = 200 ->
  exists (message reply timestamp : string) (record : AnalyticsRecord)
         (agentDetails : AgentDetails) (openAIResponse : OpenAI.Completion.t),
    interactSchema req_body = inr message
    /\ chat_completions_create w (providerParams w name agentDetails message)
       = inr openAIResponse
    /\ body r = ReplyBody name reply timestamp
    /\ reply = agentReply openAIResponse
    /\ analytics_records (trace (interact name req_body) w) = [record]
    /\ agent record = name
    /\ messageLength record = String.length message
    /\ responseLength record = String.length reply
    /\ type record = "interaction"
    /\ (choices_0_message_content openAIResponse = None
        \/ choices_0_message_content openAIResponse = Some "" ->
        reply = "I'm sorry, I couldn't process your request at this time."
        /\ responseLength record = 56).
Proof.
  unfold response, trace.
  destruct (interact_Run w name req_body) as
    [ error Hv | m fault Hv Hd | m Hv Hd | m d fault Hv Hd Hc
    | m d c Hv Hd Hc Ha | m d c fault Hv Hd Hc Ha ];
    cbn [fst snd Path.refused Path.store_fault Path.not_found Path.provider_fault
           Path.recorded Path.unrecorded];
    intros [= <-] Hstatus; try discriminate Hstatus.
  all: exists m, (agentReply c), (Date.toISOString (now w)),
         (usageRecord name m (agentReply c)), d, c.
  all: repeat (split; [first [assumption | reflexivity] |]).
  all: intros Hempty; assert (Hreply : agentReply c
         = "I'm sorry, I couldn't process your request at this time.")
         by (unfold agentReply; destruct Hempty as [-> | ->]; reflexivity).
  all: split; [exact Hreply |].
  all: unfold usageRecord; cbn [responseLength]; rewrite Hreply; reflexivity.
Qed.

Lemma analytics_record_fields_witness :
  let w := Sample.world (inr {| OpenAI.Completion.choices := [] |})
                        (inl Sample.unavailable) in
  let req_body := JObj [("message", JStr Sample.question)] in
  exists (message reply timestamp : string) (record : AnalyticsRecord)
         (agentDetails : AgentDetails) (openAIResponse : OpenAI.Completion.t),
    interactSchema req_body = inr message
    /\ chat_completions_create w (providerParams w "Aura" agentDetails message)
       = inr openAIResponse
    /\ ReplyBody "Aura" "I'm sorry, I couldn't process your request at this time."
                 (Date.toISOString (now w))
       = ReplyBody "Aura" reply timestamp
    /\ reply = agentReply openAIResponse
    /\ analytics_records (trace (interact "Aura" req_body) w) = [record]
    /\ agent record = "Aura"
    /\ messageLength record = String.length message
    /\ responseLength record = String.length reply
    /\ type record = "interaction"
    /\ (choices_0_message_content openAIResponse = None
        \/ choices_0_message_content openAIResponse = Some "" ->
        reply = "I'm sorry, I couldn't process your request at this time."
        /\ responseLength record = 56).
Proof.
  exact (analytics_record_fields
           (Sample.world (inr {| OpenAI.Completion.choices := [] |})
                         (inl Sample.unavailable))
           "Aura" (JObj [("message", JStr Sample.question)])
           {| status := 200;
              body := ReplyBody "Aura"
                        "I'm sorry, I couldn't process your request at this time."
                        (Date.toISOString 1736944496789) |}
           eq_refl eq_refl).
Defined.

(** ** Unknown keys *)

(** C9. A body that has a key other than [message] is refused, also when its
    [message] is a string of 1 to 1000 characters: the response has status 400
    and the body [{error: "Validation error", message}], and no collaborator
    is called.  When the message is itself acceptable, the error says that
    the first of the other keys is not allowed, under the label Joi gives it:
    the key in quotes, or ["value"] in quotes when the key is the empty
    string. *)
Theorem unknown_key_rejected
        (w : World) (name : string) (props : list (string * Json)) (k : string) :
  In k (keys props) ->
  k <> "message" ->
  exists error,
    interactSchema (JObj props) = inl error
    /\ response (interact name (JObj props)) w
       = Some {| status := 400;
                 body := ErrorBody "Validation error" (Error.message error) |}
    /\ calls (trace (interact name (JObj props)) w) = []
    /\ (forall s, get "message" props = Some (JStr s) ->
                  1 <= String.length s <= 1000 ->
                  exists k', In k' (keys props) /\ k' <> "message"
                             /\ Error.message error
                                = (Joi.dquote
                                     ++ (if String.eqb k' "" then "value" else k')
                                     ++ Joi.dquote)
                                    ++ " is not allowed").
Proof.
  intros Hin Hk. destruct (unknown_key_refused props k Hin Hk) as [error Hval].
  exists error. split; [exact Hval |].
  destruct (handle_response _ _ _ _ (interact_refused w name (JObj props) error Hval))
    as [Hres Htrace].
  rewrite Hres, Htrace. repeat split.
  intros s Hget Hlen.
  destruct (unknown_key_named props k s Hin Hk Hget Hlen) as (k' & Hin' & Hk' & Hnamed).
  exists k'. repeat split; try assumption.
  rewrite Hnamed in Hval. now injection Hval as <-.
Qed.

Lemma unknown_key_rejected_witness :
  let props := [("message", JStr "hi"); ("stream", JBool true)] in
  exists error,
    interactSchema (JObj props) = inl error
    /\ response (interact "Aura" (JObj props))
         (Sample.world (inr Sample.completion) (inr tt))
       = Some {| status := 400;
                 body := ErrorBody "Validation error" (Error.message error) |}
    /\ calls (trace (interact "Aura" (JObj props))
                (Sample.world (inr Sample.completion) (inr tt))) = []
    /\ (forall s, get "message" props = Some (JStr s) ->
                  1 <= String.length s <= 1000 ->
                  exists k', In k' (keys props) /\ k' <> "message"
                             /\ Error.message error
                                = (Joi.dquote
                                     ++ (if String.eqb k' "" then "value" else k')
                                     ++ Joi.dquote)
                                    ++ " is not allowed").
Proof.
  apply (unknown_key_rejected (Sample.world (inr Sample.completion) (inr tt)) "Aura"
           [("message", JStr "hi"); ("stream", JBool true)] "stream").
  - right. left. reflexivity.
  - discriminate.
Defined.

(** * Further properties of the server *)

(** ** Acceptable bodies *)

Lemma unprocessed_nil (props : list (string * Json)) :
  Joi.unprocessed "message" props = [] <->
  (forall k, In k (keys props) -> k = "message").
Proof.
  split.
  - intros Hnil k Hin. destruct (String.eqb_spec k "message") as [Heq | Hne]; [exact Heq |].
    assert (H : In k (Joi.unprocessed "message" props)) by now apply unprocessed_In.
    rewrite Hnil in H. destruct H.
  - intros Hall. destruct (Joi.unprocessed "message" props) as [ | k rest] eqn:Hunk;
      [reflexivity |].
    assert (H : In k (Joi.unprocessed "message" props)) by (rewrite Hunk; now left).
    apply unprocessed_In in H as [Hin Hne]. now destruct (Hne (Hall k Hin)).
Qed.

(** The schema accepts exactly the acceptable bodies, and the validated
    message is the [message] of the body as it was sent. *)
Lemma schema_acceptable (req_body : Json) (s : string) :
  interactSchema req_body = inr s <->
  acceptable req_body /\ message_field req_body = Some (JStr s).
Proof.
  rewrite interactSchema_accepts. split.
  - intros (props & -> & Hget & Hlen & Hunk). split; [| exact Hget].
    exists props, s. repeat split; try assumption; try apply Hlen.
    now apply unprocessed_nil.
  - intros [(props & s' & -> & Hget & Hlen & Hkeys) Hfield]. cbn in Hfield.
    rewrite Hget in Hfield. injection Hfield as ->.
    exists props. repeat split; try assumption; try apply Hlen.
    now apply unprocessed_nil.
Qed.

Lemma acceptable_validated (req_body : Json) :
  acceptable req_body <-> exists s, interactSchema req_body = inr s.
Proof.
  split.
  - intros Hacc. pose proof Hacc as (props & s & -> & Hget & _).
    exists s. apply schema_acceptable. split; [exact Hacc | exact Hget].
  - intros (s & Hs). now apply schema_acceptable in Hs.
Qed.

Lemma refused_not_acceptable (req_body : Json) (error : Error.t) :
  interactSchema req_body = inl error -> ~ acceptable req_body.
Proof.
  intros Hval Hacc. apply acceptable_validated in Hacc as (s & Hs).
  rewrite Hs in Hval. discriminate.
Qed.

(** ** The outcomes of the interaction route *)

Ltac by_path w name req_body :=
  unfold response, trace;
  destruct (interact_Run w name req_body) as
    [ error Hv | m fault Hv Hd | m Hv Hd | m d fault Hv Hd Hc
    | m d c Hv Hd Hc Ha | m d c fault Hv Hd Hc Ha ];
  cbn [fst snd Path.refused Path.store_fault Path.not_found Path.provider_fault
         Path.recorded Path.unrecorded Path.replied json
         validation_error agent_not_found interaction_failed status body].

Ltac contradict_outcomes :=
  repeat match goal with
         | H : exists _, _ |- _ => destruct H
         | H : _ /\ _ |- _ => destruct H
         | H : _ \/ _ |- _ => destruct H
         end;
  congruence.

(** X1. The status of the response is decided by the validation of the body
    and the outcomes of the store read and of the provider call: 400 when the
    schema refuses the body, 404 when the agent is absent, 500 when the read
    or the provider call throws, 200 when both succeed; the analytics write
    has no part in it. *)
Theorem interact_status_table (w : World) (name : string) (req_body : Json) :
  exists r,
    response (interact name req_body) w = Some r
    /\ (status r = 400 <-> exists error, interactSchema req_body = inl error)
    /\ (status r = 404 <->
        exists m, interactSchema req_body = inr m
                  /\ doc_get w "agents" name = inr absent)
    /\ (status r = 500 <->
        exists m, interactSchema req_body = inr m
                  /\ ((exists fault, doc_get w "agents" name = inl fault)
                      \/ exists d fault,
                           doc_get w "agents" name = inr (present d)
                           /\ chat_completions_create w (providerParams w name d m)
                              = inl fault))
    /\ (status r = 200 <->
        exists m d c, interactSchema req_body = inr m
                      /\ doc_get w "agents" name = inr (present d)
                      /\ chat_completions_create w (providerParams w name d m) = inr c).
Proof.
  by_path w name req_body; eexists; (split; [reflexivity |]); cbn [status];
    repeat split; intros H; try discriminate H; try reflexivity;
    try (exfalso; contradict_outcomes); eauto 10.
Qed.

(** X2. The bodies answered with 400 are exactly those that are not
    acceptable: anything but an object whose only key is [message] with a
    string of 1 to 1000 characters.  The bounds are inclusive. *)
Theorem validation_boundary (w : World) (name : string) (req_body : Json) :
  exists r,
    response (interact name req_body) w = Some r
    /\ (status r = 400 <-> ~ acceptable req_body).
Proof.
  by_path w name req_body; eexists; (split; [reflexivity |]); cbn [status];
    split; intros H; try discriminate H; try reflexivity;
    try (now apply (refused_not_acceptable req_body error));
    exfalso; apply H; apply acceptable_validated; eauto.
Qed.

(** X3. The handler calls its collaborators in one order and each at most
    once: the read of the agent's document, then the provider, then the
    analytics write; a later call is made only when the earlier ones were.
    It never writes to the [agents] collection nor reads [analytics]. *)
Theorem call_discipline (w : World) (name : string) (req_body : Json) :
  let made := calls (trace (interact name req_body) w) in
  made = []
  \/ made = [DocGet "agents" name]
  \/ (exists p, made = [DocGet "agents" name; ChatCreate p])
  \/ (exists p record,
        made = [DocGet "agents" name; ChatCreate p; CollectionAdd "analytics" record]).
Proof.
  by_path w name req_body; cbv zeta.
  - left. reflexivity.
  - right. left. reflexivity.
  - right. left. reflexivity.
  - right. right. left. eexists. reflexivity.
  - right. right. right. do 2 eexists. reflexivity.
  - right. right. right. do 2 eexists. reflexivity.
Qed.

(** X4. What the provider receives is the system prompt followed by the
    user's message, and the user's message is the [message] of the body as it
    was sent: validation does not trim or convert it. *)
Theorem user_message_verbatim
        (w : World) (name : string) (req_body : Json) (p : OpenAI.Params) :
  In p (provider_calls (trace (interact name req_body) w)) ->
  exists (d : AgentDetails) (m : string),
    message_field req_body = Some (JStr m)
    /\ doc_get w "agents" name = inr (present d)
    /\ OpenAI.messages p
       = [ {| OpenAI.role := "system"; OpenAI.content := systemPrompt name d |};
           {| OpenAI.role := "user"; OpenAI.content := m |} ].
Proof.
  intros Hin.
  destruct (provider_calls_interact w name req_body)
    as [Hnone | (m & d & Hv & Hd & Hone)].
  - rewrite Hnone in Hin. destruct Hin.
  - rewrite Hone in Hin. destruct Hin as [<- | []].
    exists d, m. apply schema_acceptable in Hv as [_ Hfield]. repeat split; assumption.
Qed.

Lemma user_message_verbatim_witness :
  let w := Sample.world (inr Sample.completion) (inr tt) in
  let req_body := JObj [("message", JStr "  gm  ")] in
  exists (d : AgentDetails) (m : string),
    message_field req_body = Some (JStr m)
    /\ doc_get w "agents" "Aura" = inr (present d)
    /\ OpenAI.messages (providerParams w "Aura" Sample.Aura "  gm  ")
       = [ {| OpenAI.role := "system"; OpenAI.content := systemPrompt "Aura" d |};
           {| OpenAI.role := "user"; OpenAI.content := m |} ].
Proof.
  apply (user_message_verbatim (Sample.world (inr Sample.completion) (inr tt)) "Aura"
           (JObj [("message", JStr "  gm  ")])).
  left. reflexivity.
Defined.

(** X5. The provider is called exactly when the body is valid and the agent
    exists, and a record is handed to the analytics collection exactly when
    the response is 200, in which case there is one. *)
Theorem side_effects_by_outcome (w : World) (name : string) (req_body : Json) :
  exists r,
    response (interact name req_body) w = Some r
    /\ (provider_calls (trace (interact name req_body) w) <> [] <->
        exists m d, interactSchema req_body = inr m
                    /\ doc_get w "agents" name = inr (present d))
    /\ (analytics_records (trace (interact name req_body) w) <> [] <-> status r = 200)
    /\ length (analytics_records (trace (interact name req_body) w)) <= 1
    /\ length (provider_calls (trace (interact name req_body) w)) <= 1.
Proof.
  by_path w name req_body; eexists; (split; [reflexivity |]); cbn [status];
    (split; [| split; [| split; cbn; lia]]);
    (split; intros H;
     try discriminate H; try (now destruct H); try discriminate;
     try (exfalso; contradict_outcomes); eauto).
Qed.

(** X6. Client errors are logged as warnings and server faults as errors,
    and each line carries its cause.  A 400 leaves one warning, with the
    schema's message, and no error line; a 404 leaves one warning, with the
    name, and no error line; a 500 leaves no warning and one error line with
    the message of the fault that the store read or the provider call threw;
    a 200 leaves no warning, and an error line exactly when the analytics
    write threw, with the message of that fault. *)
Theorem log_levels (w : World) (name : string) (req_body : Json) :
  exists r,
    response (interact name req_body) w = Some r
    /\ let t := trace (interact name req_body) w in
       (status r = 400 ->
        exists error,
          interactSchema req_body = inl error
          /\ logged logger.warn t
             = ["Validation error for agent interaction: " ++ Error.message error]
          /\ logged logger.error t = [])
       /\ (status r = 404 ->
           logged logger.warn t = ["Agent not found for interaction: " ++ name]
           /\ logged logger.error t = [])
       /\ (status r = 500 ->
           logged logger.warn t = []
           /\ exists message fault,
                interactSchema req_body = inr message
                /\ (doc_get w "agents" name = inl fault
                    \/ exists agentDetails,
                         doc_get w "agents" name = inr (present agentDetails)
                         /\ chat_completions_create w
                              (providerParams w name agentDetails message)
                            = inl fault)
                /\ logged logger.error t
                   = ["Error in agent interaction: " ++ Error.message fault])
       /\ (status r = 200 ->
           logged logger.warn t = []
           /\ exists message agentDetails openAIResponse,
                interactSchema req_body = inr message
                /\ doc_get w "agents" name = inr (present agentDetails)
                /\ chat_completions_create w
                     (providerParams w name agentDetails message)
                   = inr openAIResponse
                /\ ((collection_add w "analytics"
                       (usageRecord name message (agentReply openAIResponse))
                     = inr tt
                     /\ logged logger.error t = [])
                    \/ exists fault,
                         collection_add w "analytics"
                           (usageRecord name message (agentReply openAIResponse))
                         = inl fault
                         /\ logged logger.error t
                            = ["Failed to record analytics: "
                                 ++ Error.message fault])).
Proof.
  by_path w name req_body; eexists; (split; [reflexivity |]); cbn [status]; cbv zeta;
    (split; [| split; [| split]]); intros H; try discriminate H.
  - exists error. repeat split. exact Hv.
  - split; [reflexivity |]. exists m, fault. repeat split; [exact Hv | now left].
  - split; reflexivity.
  - split; [reflexivity |]. exists m, fault. repeat split; [exact Hv |].
    right. exists d. split; assumption.
  - split; [reflexivity |]. exists m, d, c. repeat split; try assumption.
    left. split; [assumption | reflexivity].
  - split; [reflexivity |]. exists m, d, c. repeat split; try assumption.
    right. exists fault. split; [assumption | reflexivity].
Qed.

(** ** The metadata route and the fallback handlers *)

Ltac member := cbn; repeat (first [left; reflexivity | right]).

(** The run of the metadata route, decided by the outcome of the read. *)
Lemma getAgent_run (w : World) (name : string) :
  handle (getAgent name) w
  = match doc_get w "agents" name with
    | inl fault =>
        (inr {| status := 500;
                body := ErrorBody "Internal server error"
                          "An unexpected error occurred while retrieving agent details" |},
         [DocGet "agents" name;
          Log logger.error ("Error fetching agent details: " ++ Error.message fault)
            [("agent", name); ("stack", Error.stack fault)]])
    | inr absent =>
        (inr (agent_not_found name),
         [DocGet "agents" name; Log logger.warn ("Agent not found: " ++ name) []])
    | inr (present agentDetails) =>
        (inr {| status := 200; body := DetailsBody agentDetails |},
         [DocGet "agents" name;
          Log logger.info ("Successfully retrieved agent: " ++ name) []])
    end.
Proof.
  unfold getAgent. run_handler.
  destruct (doc_get w "agents" name) as [fault | [ | agentDetails]]; reflexivity.
Qed.

(** X7. The metadata route reads the agent's document once and calls nothing
    else; it answers 200 with the stored fields as they are when the document
    exists, 404 when it does not, and 500 when the read throws. *)
Theorem getAgent_outcomes (w : World) (name : string) :
  exists r,
    response (getAgent name) w = Some r
    /\ calls (trace (getAgent name) w) = [DocGet "agents" name]
    /\ (forall d, doc_get w "agents" name = inr (present d) <->
                  r = {| status := 200; body := DetailsBody d |})
    /\ (doc_get w "agents" name = inr absent <-> status r = 404)
    /\ ((exists fault, doc_get w "agents" name = inl fault) <-> status r = 500).
Proof.
  unfold response, trace. rewrite getAgent_run.
  destruct (doc_get w "agents" name) as [fault | [ | agentDetails]];
    eexists; (split; [reflexivity |]); (split; [reflexivity |]);
    repeat split; intros H; try discriminate H; try congruence; eauto;
    try (destruct H as [? H]; discriminate H).
Qed.

(** X8. A read of the store that throws is a server fault on both routes, not
    an absent agent: each answers 500 with its own fixed message, the fault's
    message goes to the error log, and the interaction route calls neither the
    provider nor the analytics collection. *)
Theorem store_fault_500 (w : World) (name : string) (fault : Error.t) :
  doc_get w "agents" name = inl fault ->
  response (getAgent name) w
    = Some {| status := 500;
              body := ErrorBody "Internal server error"
                        "An unexpected error occurred while retrieving agent details" |}
  /\ logged logger.error (trace (getAgent name) w)
     = ["Error fetching agent details: " ++ Error.message fault]
  /\ (forall (req_body : Json) (m : string),
        interactSchema req_body = inr m ->
        response (interact name req_body) w
          = Some {| status := 500;
                    body := ErrorBody "Internal server error"
                              "An unexpected error occurred during agent interaction" |}
        /\ logged logger.error (trace (interact name req_body) w)
           = ["Error in agent interaction: " ++ Error.message fault]
        /\ calls (trace (interact name req_body) w) = [DocGet "agents" name]).
Proof.
  intros Hfault. unfold response, trace. rewrite getAgent_run, Hfault.
  repeat split;
    rewrite (interact_store_fault w name req_body m H fault Hfault); reflexivity.
Qed.

Lemma store_fault_500_witness :
  let w := {| env := fun _ => None;
              doc_get := fun _ _ => inl Sample.unavailable;
              chat_completions_create := fun _ => inr Sample.completion;
              collection_add := fun _ _ => inr tt;
              now := 0 |} in
  response (getAgent "Aura") w
    = Some {| status := 500;
              body := ErrorBody "Internal server error"
                        "An unexpected error occurred while retrieving agent details" |}
  /\ response (interact "Aura" (JObj [("message", JStr "hi")])) w
     = Some {| status := 500;
               body := ErrorBody "Internal server error"
                         "An unexpected error occurred during agent interaction" |}
  /\ calls (trace (interact "Aura" (JObj [("message", JStr "hi")])) w)
     = [DocGet "agents" "Aura"].
Proof.
  destruct (store_fault_500
              {| env := fun _ => None;
                 doc_get := fun _ _ => inl Sample.unavailable;
                 chat_completions_create := fun _ => inr Sample.completion;
                 collection_add := fun _ _ => inr tt;
                 now := 0 |}
              "Aura" Sample.unavailable eq_refl) as (Hget & _ & Hpost).
  destruct (Hpost (JObj [("message", JStr "hi")]) "hi" eq_refl) as (Hres & _ & Hcalls).
  repeat split; assumption.
Defined.

(** X9. The two routes agree on the lookup: for a valid body, the interaction
    route answers 404 exactly when the metadata route does, with the same
    body, it answers 500 whenever the metadata route does, and it calls the
    provider exactly when the metadata route answers 200. *)
Theorem routes_agree_on_lookup
        (w : World) (name : string) (req_body : Json) (message : string) :
  interactSchema req_body = inr message ->
  exists r g,
    response (interact name req_body) w = Some r
    /\ response (getAgent name) w = Some g
    /\ (status g = 404 <-> status r = 404)
    /\ (status g = 404 -> body g = body r)
    /\ (status g = 500 -> status r = 500)
    /\ (status g = 200 <-> provider_calls (trace (interact name req_body) w) <> []).
Proof.
  intros Hvalid. unfold response at 2. rewrite getAgent_run.
  by_path w name req_body; try congruence;
    rewrite Hd; do 2 eexists; (split; [reflexivity |]); (split; [reflexivity |]);
    cbn [status body fst]; repeat split; intros H; try discriminate H;
    try reflexivity; try discriminate; try (now destruct H).
Qed.

Lemma routes_agree_on_lookup_witness :
  let w := Sample.world (inr Sample.completion) (inr tt) in
  let req_body := JObj [("message", JStr "hi")] in
  exists r g,
    response (interact "Nova" req_body) w = Some r
    /\ response (getAgent "Nova") w = Some g
    /\ (status g = 404 <-> status r = 404)
    /\ (status g = 404 -> body g = body r)
    /\ (status g = 500 -> status r = 500)
    /\ (status g = 200 <-> provider_calls (trace (interact "Nova" req_body) w) <> []).
Proof.
  exact (routes_agree_on_lookup (Sample.world (inr Sample.completion) (inr tt))
           "Nova" (JObj [("message", JStr "hi")]) "hi" eq_refl).
Defined.

(** X10. Every handler answers, with one of the statuses 200, 400, 404 and
    500; a response other than 200 has a body [{error, message}] whose
    [error] is one of four fixed texts; and the body of a 500 is one of three
    fixed bodies, whatever the fault was. *)
Theorem envelopes_uniform
        (w : World) (name : string) (req_body : Json) (err : Error.t)
        (req_method req_path : string) :
  Forall
    (fun h : M Response =>
       exists r,
         response h w = Some r
         /\ In (status r) [200; 400; 404; 500]
         /\ (status r <> 200 ->
             exists e msg,
               body r = ErrorBody e msg
               /\ In e ["Validation error"; "Agent not found"; "Not found";
                        "Internal server error"])
         /\ (status r = 500 ->
             exists msg,
               body r = ErrorBody "Internal server error" msg
               /\ In msg ["An unexpected error occurred while retrieving agent details";
                          "An unexpected error occurred during agent interaction";
                          "An unexpected error occurred"]))
    [getAgent name; interact name req_body; errorHandler err;
     notFoundHandler req_method req_path].
Proof.
  assert (Henvelope : forall r : Response,
             status r = 200
             \/ (In (status r) [400; 404]
                 /\ exists e msg,
                      body r = ErrorBody e msg
                      /\ In e ["Validation error"; "Agent not found"; "Not found";
                               "Internal server error"])
             \/ (status r = 500
                 /\ exists msg,
                      body r = ErrorBody "Internal server error" msg
                      /\ In msg ["An unexpected error occurred while retrieving agent details";
                                 "An unexpected error occurred during agent interaction";
                                 "An unexpected error occurred"]) ->
             In (status r) [200; 400; 404; 500]
             /\ (status r <> 200 ->
                 exists e msg,
                   body r = ErrorBody e msg
                   /\ In e ["Validation error"; "Agent not found"; "Not found";
                            "Internal server error"])
             /\ (status r = 500 ->
                 exists msg,
                   body r = ErrorBody "Internal server error" msg
                   /\ In msg ["An unexpected error occurred while retrieving agent details";
                              "An unexpected error occurred during agent interaction";
                              "An unexpected error occurred"])).
  { intros r [H200 | [[Hclient Hbody] | [H500 (msg & Hbody & Hmsg)]]].
    - rewrite H200. split; [member |]. split; [intros H; now destruct H | discriminate].
    - split; [cbn in *; tauto |]. split; [intros _; exact Hbody |].
      intros H; rewrite H in Hclient; cbn in Hclient;
        destruct Hclient as [H' | [H' | []]]; discriminate H'.
    - rewrite H500. split; [member |]. split.
      + intros _. exists "Internal server error", msg. split; [exact Hbody | member].
      + intros _. exists msg. split; assumption. }
  apply Forall_cons; [| apply Forall_cons; [| apply Forall_cons;
    [| apply Forall_cons; [| apply Forall_nil]]]].
  - unfold response. rewrite getAgent_run.
    destruct (doc_get w "agents" name) as [fault | [ | agentDetails]];
      eexists; (split; [reflexivity |]); apply Henvelope; cbn [status body agent_not_found].
    + right. right. split; [reflexivity |]. eexists. split; [reflexivity | member].
    + right. left. split; [member | do 2 eexists; split; [reflexivity | member]].
    + left. reflexivity.
  - by_path w name req_body; eexists; (split; [reflexivity |]); apply Henvelope;
      cbn [status body].
    + right. left. split; [member | do 2 eexists; split; [reflexivity | member]].
    + right. right. split; [reflexivity |]. eexists. split; [reflexivity | member].
    + right. left. split; [member | do 2 eexists; split; [reflexivity | member]].
    + right. right. split; [reflexivity |]. eexists. split; [reflexivity | member].
    + left. reflexivity.
    + left. reflexivity.
  - eexists. split; [reflexivity |]. apply Henvelope. cbn [status body].
    right. right. split; [reflexivity |]. eexists. split; [reflexivity | member].
  - eexists. split; [reflexivity |]. apply Henvelope. cbn [status body].
    right. left. split; [member | do 2 eexists; split; [reflexivity | member]].
Qed.

(** X11. The health route answers 200 with the status "healthy", the version
    "1.2.4" and a timestamp of the ISO-8601 shape in every world: it calls no
    collaborator and logs nothing, so it answers also when the store or the
    provider is down. *)
Theorem health_always_healthy (w : World) :
  exists now_iso,
    Health.handler w []
    = (inr {| Health.code := 200;
              Health.body := {| Health.status := "healthy";
                                Health.version := "1.2.4";
                                Health.timestamp := now_iso |} |},
       [])
    /\ ISO8601 now_iso.
Proof.
  exists (Date.toISOString (now w)). split; [reflexivity | apply toISOString_ISO8601].
Qed.

(** ** Loading the Firebase module *)

Section FirebaseLoad.

Import Firebase.

(** The paths of [load]: the outcome of each call it makes, in order. *)
Ltac load_paths w :=
  unfold exported, thrown, Firebase.trace, run, load, Firebase.try_catch, Firebase.bind,
    Firebase.ret, throw, Firebase.log, Firebase.process_env, assign, read,
    Firebase.perform;
  cbn;
  destruct (truthy (env w "SERVICE_ACCOUNT_KEY")) as [key | ] eqn:Hkey; cbn;
  [ destruct (JSON_parse w key) as [parseError | serviceAccount] eqn:Hparse; cbn;
    [ | destruct (credential_cert w (FromObject serviceAccount))
          as [certError | c] eqn:Hcert; cbn;
        [ | destruct (initializeApp w {| credential := Some c |})
              as [initError | []] eqn:Hinit; cbn ] ]
  | destruct (fs_existsSync w (path_resolve w (dirname w) "serviceAccountKey.json"))
      eqn:Hfile; cbn;
    [ destruct (credential_cert w
                  (FromPath (path_resolve w (dirname w) "serviceAccountKey.json")))
        as [certError | c] eqn:Hcert; cbn;
      [ | destruct (initializeApp w {| credential := Some c |})
            as [initError | []] eqn:Hinit; cbn ]
    | ] ];
  try (destruct (strict_equal (env w "NODE_ENV") "production") eqn:Hprod; cbn);
  try (destruct (firestore w) as [storeError | []] eqn:Hstore; cbn;
       [ | destruct (settings w) as [settingsError | []] eqn:Hsettings; cbn ]).

(** X12. In production a failed initialization stops the load: the error
    that the outer [catch] logged is thrown again, nothing is exported and
    [admin.firestore()] is not called. *)
Theorem production_fails_fast (w : World) :
  env w "NODE_ENV" = Some "production" ->
  initialized (Firebase.trace w) = false ->
  exists e,
    thrown w = Some e
    /\ exported w = None
    /\ filter is_GetFirestore (Firebase.trace w) = []
    /\ In ("Failed to initialize Firebase", [("error", Error.message e)])
          (Firebase.logged logger.error (Firebase.trace w)).
Proof.
  intros Hnode.
  assert (Hp : strict_equal (env w "NODE_ENV") "production" = true)
    by (rewrite Hnode; reflexivity).
  load_paths w; intros Hinit'; try discriminate Hinit'; try congruence;
    eexists; (split; [reflexivity |]); (split; [reflexivity |]);
    (split; [reflexivity | member]).
Qed.

Lemma production_fails_fast_witness :
  exists e,
    thrown (sample_file (Some "production") false) = Some e
    /\ exported (sample_file (Some "production") false) = None
    /\ filter is_GetFirestore (Firebase.trace (sample_file (Some "production") false)) = []
    /\ In ("Failed to initialize Firebase", [("error", Error.message e)])
          (Firebase.logged logger.error
             (Firebase.trace (sample_file (Some "production") false))).
Proof.
  exact (production_fails_fast (sample_file (Some "production") false) eq_refl eq_refl).
Defined.

(** X13. Outside production a failed initialization does not stop the load:
    it is logged as an error and as a warning, and the module goes on to
    [admin.firestore()]; what it exports then depends on that call and on
    [db.settings] only. *)
Theorem development_degrades (w : World) :
  strict_equal (env w "NODE_ENV") "production" = false ->
  In GetFirestore (Firebase.trace w)
  /\ (exported w = Some db <-> firestore w = inr db /\ settings w = inr tt)
  /\ (initialized (Firebase.trace w) = false ->
      Firebase.logged logger.warn (Firebase.trace w)
      = [("Running in development mode with Firebase initialization error. Some features may not work correctly.",
          [])]
      /\ exists cause : string,
           In ("Failed to initialize Firebase", [("error", cause)])
              (Firebase.logged logger.error (Firebase.trace w))).
Proof.
  intros Hdev.
  load_paths w; try congruence;
    (split; [member |]);
    (split; [split; [intros H; try discriminate H; split; reflexivity
                    | intros [H1 H2]; try discriminate H1; try discriminate H2; reflexivity]
            |]);
    intros H; try discriminate H; (split; [reflexivity |]);
    eexists; member.
Qed.

Lemma development_degrades_witness :
  let w := sample None (inl (Error.make "Unexpected token } in JSON" "")) true in
  In GetFirestore (Firebase.trace w)
  /\ (exported w = Some db <-> firestore w = inr db /\ settings w = inr tt)
  /\ (initialized (Firebase.trace w) = false ->
      Firebase.logged logger.warn (Firebase.trace w)
      = [("Running in development mode with Firebase initialization error. Some features may not work correctly.",
          [])]
      /\ exists cause : string,
           In ("Failed to initialize Firebase", [("error", cause)])
              (Firebase.logged logger.error (Firebase.trace w))).
Proof.
  exact (development_degrades
           (sample None (inl (Error.make "Unexpected token } in JSON" "")) true) eq_refl).
Defined.

(** X14. The environment variable takes precedence over the local file: when
    [SERVICE_ACCOUNT_KEY] is set and not empty the file system is not
    consulted and only the parsed variable can reach [credential.cert]; when
    it is unset or empty nothing is parsed, the file is looked for at
    [serviceAccountKey.json] beside the module, and only that path can reach
    [credential.cert], after the file was found. *)
Theorem credential_source_precedence (w : World) :
  match truthy (env w "SERVICE_ACCOUNT_KEY") with
  | Some key =>
      filter is_ExistsSync (Firebase.trace w) = []
      /\ filter is_Parse (Firebase.trace w) = [Parse key]
      /\ (forall a, In a (cert_calls (Firebase.trace w)) ->
                    exists serviceAccount,
                      a = FromObject serviceAccount
                      /\ JSON_parse w key = inr serviceAccount)
  | None =>
      filter is_Parse (Firebase.trace w) = []
      /\ filter is_ExistsSync (Firebase.trace w)
         = [ExistsSync (path_resolve w (dirname w) "serviceAccountKey.json")]
      /\ (forall a, In a (cert_calls (Firebase.trace w)) ->
                    a = FromPath (path_resolve w (dirname w) "serviceAccountKey.json")
                    /\ fs_existsSync w (path_resolve w (dirname w) "serviceAccountKey.json")
                       = true)
  end.
Proof.
  load_paths w; (split; [reflexivity |]); (split; [reflexivity |]);
    cbn; intros a Ha; repeat (destruct Ha as [<- | Ha]); try destruct Ha; eauto.
Qed.

(** X15. [admin.initializeApp] is called at most once and never with the
    empty configuration the module starts from: it is called only after
    [credential.cert] returned, with the credential it returned; and the
    success line is logged exactly when that call returned. *)
Theorem initializeApp_discipline (w : World) :
  (init_calls (Firebase.trace w) = [] /\ initialized (Firebase.trace w) = false)
  \/ exists a c,
       cert_calls (Firebase.trace w) = [a]
       /\ credential_cert w a = inr c
       /\ init_calls (Firebase.trace w) = [{| credential := Some c |}]
       /\ (initialized (Firebase.trace w) = true <->
           initializeApp w {| credential := Some c |} = inr tt).
Proof.
  load_paths w;
    try (left; split; reflexivity);
    right; eexists; eexists; (split; [reflexivity |]); (split; [eassumption |]);
    (split; [reflexivity |]); rewrite Hinit; cbn; split; intros H;
    try discriminate H; reflexivity.
Qed.

(** X16. With the variable set, a failure of the parse and a failure of
    [credential.cert] on a well-formed value are reported alike: the cause is
    logged under "Failed to parse", the error that reaches the outer [catch]
    says that the variable must be valid JSON, and the SDK is not
    initialized. *)
Theorem key_failure_reported_as_invalid_json
        (w : World) (text : string) (cause : Error.t) :
  truthy (env w "SERVICE_ACCOUNT_KEY") = Some text ->
  JSON_parse w text = inl cause
  \/ (exists account,
        JSON_parse w text = inr account
        /\ credential_cert w (FromObject account) = inl cause) ->
  Firebase.logged logger.error (Firebase.trace w)
  = [("Failed to parse SERVICE_ACCOUNT_KEY environment variable",
      [("error", Error.message cause)]);
     ("Failed to initialize Firebase",
      [("error",
        "Invalid SERVICE_ACCOUNT_KEY environment variable format. Must be valid JSON.")])]
  /\ init_calls (Firebase.trace w) = []
  /\ (strict_equal (env w "NODE_ENV") "production" = true ->
      thrown w
      = Some (new_Error
                "Invalid SERVICE_ACCOUNT_KEY environment variable format. Must be valid JSON.")).
Proof.
  intros Hk Hcases.
  load_paths w; try congruence;
    (assert (Heq : key = text) by congruence); subst key;
    destruct Hcases as [Hp | (account & Hp & Hc)];
    try congruence;
    try (assert (Hsame : account = serviceAccount) by congruence; subst account);
    try congruence;
    try (assert (Hcause : parseError = cause) by congruence; subst parseError);
    try (assert (Hcause : certError = cause) by congruence; subst certError);
    repeat split; intros H; try discriminate H; reflexivity.
Qed.

Lemma key_failure_reported_as_invalid_json_witness :
  let w := sample (Some "production") (inr (JObj [])) false in
  Firebase.logged logger.error (Firebase.trace w)
  = [("Failed to parse SERVICE_ACCOUNT_KEY environment variable",
      [("error", "Service account object must contain a string project_id property")]);
     ("Failed to initialize Firebase",
      [("error",
        "Invalid SERVICE_ACCOUNT_KEY environment variable format. Must be valid JSON.")])]
  /\ init_calls (Firebase.trace w) = []
  /\ (strict_equal (env w "NODE_ENV") "production" = true ->
      thrown w
      = Some (new_Error
                "Invalid SERVICE_ACCOUNT_KEY environment variable format. Must be valid JSON.")).
Proof.
  apply (key_failure_reported_as_invalid_json
           (sample (Some "production") (inr (JObj [])) false) "{...}"
           (Error.make "Service account object must contain a string project_id property" "")).
  - reflexivity.
  - right. exists (JObj []). split; reflexivity.
Defined.

(** X17. Without the variable and without the local file nothing is handed
    to [credential.cert] or to [admin.initializeApp]; the error names the
    path that was looked for, and in production it is the error thrown. *)
Theorem missing_service_account_file (w : World) :
  truthy (env w "SERVICE_ACCOUNT_KEY") = None ->
  fs_existsSync w (path_resolve w (dirname w) "serviceAccountKey.json") = false ->
  let expected :=
    "Service account file not found at: "
      ++ path_resolve w (dirname w) "serviceAccountKey.json" in
  cert_calls (Firebase.trace w) = []
  /\ init_calls (Firebase.trace w) = []
  /\ Firebase.logged logger.error (Firebase.trace w)
     = [("Failed to initialize Firebase", [("error", expected)])]
  /\ (strict_equal (env w "NODE_ENV") "production" = true ->
      thrown w = Some (new_Error expected)).
Proof.
  intros Hk Hf expected. subst expected.
  load_paths w; try congruence;
    repeat split; intros H; try discriminate H; reflexivity.
Qed.

Lemma missing_service_account_file_witness :
  let w := sample_file None false in
  cert_calls (Firebase.trace w) = []
  /\ init_calls (Firebase.trace w) = []
  /\ Firebase.logged logger.error (Firebase.trace w)
     = [("Failed to initialize Firebase",
         [("error", "Service account file not found at: /srv/aptix/serviceAccountKey.json")])]
  /\ (strict_equal (env w "NODE_ENV") "production" = true ->
      thrown w
      = Some (new_Error
                "Service account file not found at: /srv/aptix/serviceAccountKey.json")).
Proof.
  exact (missing_service_account_file (sample_file None false) eq_refl eq_refl).
Defined.

(** X18. The module exports the Firestore instance exactly when the
    initialization went through or the process is not in production, and
    [admin.firestore()] and [db.settings] both return; [db.settings] is
    called only on an instance that [admin.firestore()] returned. *)
Theorem export_condition (w : World) :
  (exported w = Some db <->
   (initialized (Firebase.trace w) = true
    \/ strict_equal (env w "NODE_ENV") "production" = false)
   /\ firestore w = inr db /\ settings w = inr tt)
  /\ (In Settings (Firebase.trace w) -> firestore w = inr db)
  /\ (exported w = None <-> exists e, thrown w = Some e).
Proof.
  load_paths w;
    (split; [split; [intros H; try discriminate H; auto
                    | intros [[H | H] [H1 H2]];
                      try discriminate H; try discriminate H1; try discriminate H2;
                      reflexivity]
            |]);
    (split; [cbn; intros H; repeat (destruct H as [H | H]; try discriminate H);
             try destruct H; auto
            |]);
    split; intros H; try discriminate H; eauto;
    destruct H as [e H]; discriminate H.
Qed.

End FirebaseLoad.
